(** * Signal-decision engine of the futures trading bot ([signals.py])

    A shallow embedding of [signals.py] and a proof of the properties its
    specification states about it.

    Numbers are Python floats, embedded as Rocq's primitive binary64 floats,
    so NaN, the infinities, signed zeros and rounding behave as they do in
    the interpreter. Exceptions are values of an error monad. Everything the
    module reaches outside itself (pandas/ta indicators, scikit-learn, numpy,
    the process environment, the clock and the three HTTP services) is a
    field of the [External] interface.

    Conventions of the embedding:
    - a frame is the list of its rows, each with its index label; a column
      is a list of floats;
    - configuration entries have the types the YAML file gives them (ints,
      floats, strings), an absent key is [None];
    - a string is the byte string of its UTF-8 encoding: [strip] removes
      the white space of Unicode, [lower] is needed on ASCII only;
    - instants are integers of microseconds, and arithmetic that leaves the
      range of [datetime] raises [OverflowError];
    - [print] calls are left out. *)

From Stdlib Require Import ZArith List String Ascii Bool Lia Floats.
Import ListNotations.

Set Warnings "-inexact-float,-register-all".

(** ** The Python runtime, as far as [signals.py] uses it *)

Module Py.

(** Exceptions that the modelled code can meet. *)
Inductive exn : Type :=
| AttributeError
| TypeError
| ValueError
| IndexError
| OverflowError
| RequestException
| LibraryError.

(** The outcome of evaluating an expression: a value or a raised exception. *)
Inductive res (A : Type) : Type :=
| Ok (a : A)
| Raise (e : exn).

Arguments Ok {A} a.
Arguments Raise {A} e.

Definition bind {A B : Type} (m : res A) (k : A -> res B) : res B :=
  match m with
  | Ok a => k a
  | Raise e => Raise e
  end.

(** [try: m except Exception: d] *)
Definition try_except {A : Type} (m : res A) (d : A) : A :=
  match m with
  | Ok a => a
  | Raise _ => d
  end.

(** *** Floats *)

Definition geb (x y : float) : bool := (y <=? x)%float.
Definition gtb (x y : float) : bool := (y <? x)%float.

(** [float(n)] for a Python int: the nearest binary64, [OverflowError] when
    the integer is too large. *)
Definition float_of_int (z : Z) : res float :=
  let f := SF2Prim (binary_normalize prec emax z 0%Z false) in
  if is_infinity f then Raise OverflowError else Ok f.

(** The exact value of a finite float as [m * 2^e]. *)
Definition exact_value (x : float) : option (Z * Z) :=
  match Prim2SF x with
  | S754_zero _ => Some (0%Z, 0%Z)
  | S754_finite s m e => Some (if s then Z.neg m else Z.pos m, e)
  | _ => None
  end.

(** Nearest integer to [n / d] for [d > 0], ties to the even integer. *)
Definition div_half_even (n d : Z) : Z :=
  let q := (n / d)%Z in
  let r := (n mod d)%Z in
  match (2 * r ?= d)%Z with
  | Lt => q
  | Gt => (q + 1)%Z
  | Eq => if Z.even q then q else (q + 1)%Z
  end.

(** [round(x, 3)] on a float: the float nearest to the three-decimal number
    nearest to [x] (ties to even). Floats too large to carry three decimals,
    zeros, infinities and NaN are returned unchanged. *)
Definition round3 (x : float) : float :=
  match exact_value (abs x) with
  | None => x
  | Some (m, e) =>
      if (m =? 0)%Z then x
      else
        let n := if (0 <=? e)%Z then (m * 1000 * 2 ^ e)%Z
                 else div_half_even (m * 1000) (2 ^ (- e)) in
        if (2 ^ 53 <=? n)%Z then x
        else
          let r := (SF2Prim (binary_normalize prec emax n 0%Z false) / 1000)%float in
          if (x <? 0)%float then (- r)%float else r
  end.

(** *** Strings

    A Python [str] is held as the bytes of its UTF-8 encoding. *)

(** The one-byte characters [str.isspace()] accepts: U+0009..U+000D and
    U+001C..U+0020. *)
Definition is_space (c : ascii) : bool :=
  let n := nat_of_ascii c in
  ((9 <=? n) && (n <=? 13) || (28 <=? n) && (n <=? 32))%nat.

(** The two-byte ones: U+0085 and U+00A0. *)
Definition is_space2 (c1 c2 : ascii) : bool :=
  let n1 := N_of_ascii c1 in
  let n2 := N_of_ascii c2 in
  ((n1 =? 194) && ((n2 =? 133) || (n2 =? 160)))%N.

(** The three-byte ones: U+1680, U+2000..U+200A, U+2028, U+2029, U+202F,
    U+205F and U+3000. *)
Definition is_space3 (c1 c2 c3 : ascii) : bool :=
  let n1 := N_of_ascii c1 in
  let n2 := N_of_ascii c2 in
  let n3 := N_of_ascii c3 in
  ((n1 =? 225) && (n2 =? 154) && (n3 =? 128)
   || (n1 =? 226) && (n2 =? 128)
      && ((128 <=? n3) && (n3 <=? 138)
          || (n3 =? 168) || (n3 =? 169) || (n3 =? 175))
   || (n1 =? 226) && (n2 =? 129) && (n3 =? 159)
   || (n1 =? 227) && (n2 =? 128) && (n3 =? 128))%N.

(** Drops the white space at the head of [l]; with [backwards] the list is
    a reversed string, whose characters show their last byte first. *)
Fixpoint drop_space (backwards : bool) (l : list ascii) : list ascii :=
  match l with
  | [] => []
  | c1 :: l1 =>
      if is_space c1 then drop_space backwards l1
      else
        match l1 with
        | [] => l
        | c2 :: l2 =>
            if (if backwards then is_space2 c2 c1 else is_space2 c1 c2)
            then drop_space backwards l2
            else
              match l2 with
              | [] => l
              | c3 :: l3 =>
                  if (if backwards then is_space3 c3 c2 c1
                      else is_space3 c1 c2 c3)
                  then drop_space backwards l3
                  else l
              end
        end
  end.

Definition lstrip (l : list ascii) : list ascii := drop_space false l.

(** [s.strip()] *)
Definition strip (s : string) : string :=
  string_of_list_ascii
    (rev (drop_space true (rev (lstrip (list_ascii_of_string s))))).

Definition lower_ascii (c : ascii) : ascii :=
  let n := nat_of_ascii c in
  if ((65 <=? n) && (n <=? 90))%nat then ascii_of_nat (n + 32) else c.

(** [s.lower()], used only to compare with or to search for the words
    [cryptopanic], [positive] and [negative].  Outside ASCII, [str.lower()]
    yields an ASCII letter only for U+212A, which becomes [k], and for
    U+0130, which becomes [i] followed by U+0307: no further match with
    these words arises, and lowering the ASCII letters decides the same
    tests. *)
Fixpoint lower (s : string) : string :=
  match s with
  | EmptyString => EmptyString
  | String c s' => String (lower_ascii c) (lower s')
  end.

(** [needle in hay] *)
Fixpoint contains (needle hay : string) : bool :=
  if prefix needle hay then true
  else match hay with
       | EmptyString => false
       | String _ hay' => contains needle hay'
       end.

(** [s.replace("Z", "+00:00")] *)
Fixpoint replace_Z (s : string) : string :=
  match s with
  | EmptyString => EmptyString
  | String c s' =>
      if Ascii.eqb c "Z"%char then ("+00:00" ++ replace_Z s')%string
      else String c (replace_Z s')
  end.

(** [not s] for a string. *)
Definition str_empty (s : string) : bool :=
  match s with
  | EmptyString => true
  | _ => false
  end.

(** *** Parsed JSON documents

    What [response.json()] returns; the keys of a [JDict] are distinct and
    kept in document order. *)

Inductive json : Type :=
| JNull
| JBool (b : bool)
| JInt (z : Z)
| JFloat (f : float)
| JStr (s : string)
| JList (l : list json)
| JDict (d : list (string * json)).

(** Truth value of a parsed JSON value, as [bool(v)] gives it. *)
Definition truthy (v : json) : bool :=
  match v with
  | JNull => false
  | JBool b => b
  | JInt z => negb (z =? 0)%Z
  | JFloat f => negb (f =? 0)%float
  | JStr s => negb (str_empty s)
  | JList l => match l with [] => false | _ => true end
  | JDict d => match d with [] => false | _ => true end
  end.

(** [a or b] *)
Definition or_ (a b : json) : json := if truthy a then a else b.

Fixpoint lookup (k : string) (d : list (string * json)) : option json :=
  match d with
  | [] => None
  | (k', v) :: d' => if String.eqb k k' then Some v else lookup k d'
  end.

(** [d.get(k)] *)
Definition dict_get (d : list (string * json)) (k : string) : json :=
  match lookup k d with
  | Some v => v
  | None => JNull
  end.

(** [v.get(k)] on an arbitrary value: only dicts have the method. *)
Definition get (v : json) (k : string) : res json :=
  match v with
  | JDict d => Ok (dict_get d k)
  | _ => Raise AttributeError
  end.

(** [v.get(k, [])] *)
Definition get_or_empty (v : json) (k : string) : res json :=
  match v with
  | JDict d => Ok (match lookup k d with Some x => x | None => JList [] end)
  | _ => Raise AttributeError
  end.

(** The characters of a string: a character is a byte that is not a
    continuation byte of UTF-8, with the continuation bytes after it. *)
Definition is_continuation (c : ascii) : bool :=
  let n := N_of_ascii c in ((128 <=? n) && (n <=? 191))%N.

Definition characters (s : string) : list string :=
  let step (c : ascii) (st : string * list string) :=
    if is_continuation c then (String c (fst st), snd st)
    else (EmptyString, String c (fst st) :: snd st) in
  let st := fold_right step (EmptyString, []) (list_ascii_of_string s) in
  if str_empty (fst st) then snd st else fst st :: snd st.

(** [iter(v)]: the elements a [for] loop over [v] visits. *)
Definition iter (v : json) : res (list json) :=
  match v with
  | JList l => Ok l
  | JDict d => Ok (map (fun kv => JStr (fst kv)) d)
  | JStr s => Ok (map JStr (characters s))
  | _ => Raise TypeError
  end.

(** [l[:k]] *)
Definition slice_to {A : Type} (k : Z) (l : list A) : list A :=
  if (0 <=? k)%Z then firstn (Z.to_nat k) l
  else firstn (List.length l - Z.to_nat (- k)) l.

(** [l[-1]] as an option. *)
Definition last_opt {A : Type} (l : list A) : option A :=
  match rev l with
  | [] => None
  | a :: _ => Some a
  end.

End Py.

Import Py.

Declare Scope py_scope.
Delimit Scope py_scope with py.
Notation "x <- m ;; k" := (bind m (fun x => k))
  (at level 61, m at next level, right associativity) : py_scope.
Notation "' pat <- m ;; k" := (bind m (fun x => match x with pat => k end))
  (at level 61, pat pattern, m at next level, right associativity) : py_scope.

(** ** Data frames *)

(** A candle row of the frame [fetch_candles_df] builds; [c_idx] is the
    row's label in the frame's index. *)
Record candle : Type := mk_candle {
  c_idx : Z;
  c_ts : Z;
  c_open : float;
  c_high : float;
  c_low : float;
  c_close : float;
  c_volume : float
}.

(** A row of the frame [build_features] returns: the candle columns and the
    thirteen columns the function adds. *)
Record frow : Type := mk_frow {
  f_idx : Z;
  f_ts : Z;
  f_open : float;
  f_high : float;
  f_low : float;
  f_close : float;
  f_volume : float;
  f_ret1 : float;
  f_ret3 : float;
  f_ret6 : float;
  f_rsi : float;
  f_ema20 : float;
  f_ema50 : float;
  f_macd : float;
  f_macd_sig : float;
  f_bb_low : float;
  f_bb_high : float;
  f_atr : float;
  f_ema_spread : float;
  f_price_bb_pos : float
}.

(** The float columns of a feature row, in frame order. *)
Definition frow_values (r : frow) : list float :=
  [f_open r; f_high r; f_low r; f_close r; f_volume r;
   f_ret1 r; f_ret3 r; f_ret6 r; f_rsi r; f_ema20 r; f_ema50 r;
   f_macd r; f_macd_sig r; f_bb_low r; f_bb_high r; f_atr r;
   f_ema_spread r; f_price_bb_pos r].

(** [s.shift(periods)]: values move down by [periods] positions, holes hold
    NaN; the length and the index stay. *)
Definition shift (periods : Z) (col : list float) : list float :=
  map (fun i : nat =>
         let j := (Z.of_nat i - periods)%Z in
         if ((0 <=? j) && (j <? Z.of_nat (List.length col)))%Z
         then nth (Z.to_nat j) col nan
         else nan)
      (seq 0 (List.length col)).

(** Element-wise operation on two columns of one frame. *)
Definition zip_with {A B C : Type} (f : A -> B -> C)
  (l1 : list A) (l2 : list B) : list C :=
  map (fun ab => f (fst ab) (snd ab)) (combine l1 l2).

(** [s.pct_change(k)] on a column without gaps. *)
Definition pct_change (periods : Z) (col : list float) : list float :=
  zip_with (fun x prev => (x / prev - 1)%float) col (shift periods col).

(** ** The collaborators outside [signals.py] *)

(** A fitted classifier: [predict_proba(row)[0][1]]. *)
Definition classifier : Type := list float -> res float.

Class External : Type := {
  (** [RSIIndicator(close, window).rsi()] *)
  ta_rsi : list float -> Z -> res (list float);
  (** [EMAIndicator(close, window).ema_indicator()] *)
  ta_ema : list float -> Z -> res (list float);
  (** [MACD(close, 26, 12, 9)]: the pair of [macd()] and [macd_signal()] *)
  ta_macd : list float -> res (list float * list float);
  (** [BollingerBands(close, 20, 2)]: lower and upper band *)
  ta_bollinger : list float -> res (list float * list float);
  (** [AverageTrueRange(high, low, close, 14).average_true_range()] *)
  ta_atr : list float -> list float -> list float -> res (list float);
  (** [LogisticRegression(max_iter=200).fit(X, y)] *)
  sk_fit : list (list float) -> list Z -> res classifier;
  (** [float(np.mean(scores))] *)
  np_mean : list float -> float;
  (** [float(s)] for a string *)
  float_of_str : string -> res float;
  (** [os.getenv(name, "")] *)
  getenv : string -> string;
  (** [datetime.now(timezone.utc)], in microseconds *)
  now_utc : Z;
  (** [datetime.fromisoformat(s)]: [None] when it raises, otherwise the
      instant in microseconds and whether the value carries an offset *)
  fromisoformat : string -> option (Z * bool);
  (** GET cryptopanic.com/api/v1/posts/ with [auth_token] and [currencies],
      through [raise_for_status] and [json()] *)
  http_cryptopanic : string -> string -> res json;
  (** [int(dt.timestamp())] for a [dt] without offset, given in
      microseconds: the seconds since the epoch by the machine's local time
      zone, or the exception of the conversion *)
  timestamp : Z -> res Z;
  (** [datetime.utcfromtimestamp(ts).isoformat()] *)
  utcfromtimestamp : Z -> res string;
  (** GET newsapi.org/v2/everything with [apiKey], [from] and [pageSize],
      through [raise_for_status] and [json()] *)
  http_newsapi : string -> string -> Z -> res json;
  (** The [i]-th POST of one scoring batch to the FinBERT endpoint with the
      bearer token and [inputs], through [raise_for_status] and [json()] *)
  http_finbert : nat -> string -> string -> res json
}.

(** ** Candles and features *)

Section Signals.

Context {ext : External}.

Local Open Scope string_scope.
Local Open Scope list_scope.
Local Open Scope py_scope.

(** Row [i] of the frame after all the column assignments of
    [build_features]. *)
Definition feature_row (c : candle) (i : nat)
  (ret1 ret3 ret6 rsi ema20 ema50 macd macd_sig bb_low bb_high atr
     : list float) : frow :=
  let at_ (col : list float) := nth i col nan in
  let close := c_close c in
  {| f_idx := c_idx c; f_ts := c_ts c;
     f_open := c_open c; f_high := c_high c; f_low := c_low c;
     f_close := close; f_volume := c_volume c;
     f_ret1 := at_ ret1; f_ret3 := at_ ret3; f_ret6 := at_ ret6;
     f_rsi := at_ rsi; f_ema20 := at_ ema20; f_ema50 := at_ ema50;
     f_macd := at_ macd; f_macd_sig := at_ macd_sig;
     f_bb_low := at_ bb_low; f_bb_high := at_ bb_high; f_atr := at_ atr;
     f_ema_spread := ((at_ ema20 - at_ ema50) / close)%float;
     f_price_bb_pos :=
       ((close - at_ bb_low) / (at_ bb_high - at_ bb_low))%float |}.

(** [df.replace([inf, -inf], nan).dropna()] keeps the rows whose every
    value is finite. *)
Definition all_finite (r : frow) : bool := forallb is_finite (frow_values r).

Definition build_features (df : list candle) : res (list frow) :=
  let close := map c_close df in
  let ret1 := pct_change 1 close in
  let ret3 := pct_change 3 close in
  let ret6 := pct_change 6 close in
  rsi <- ta_rsi close 14 ;;
  ema20 <- ta_ema close 20 ;;
  ema50 <- ta_ema close 50 ;;
  '(macd, macd_sig) <- ta_macd close ;;
  '(bb_low, bb_high) <- ta_bollinger close ;;
  atr <- ta_atr (map c_high df) (map c_low df) close ;;
  let rows :=
    map (fun ic : nat * candle =>
           feature_row (snd ic) (fst ic)
             ret1 ret3 ret6 rsi ema20 ema50 macd macd_sig bb_low bb_high atr)
        (combine (seq 0 (List.length df)) df) in
  Ok (filter all_finite rows).

(** [make_label]: the series carries the index of [df] and an int per row. *)
Definition make_label (df : list frow) (horizon : Z) : list (Z * Z) :=
  let close := map f_close df in
  let fwd := zip_with (fun ahead c => (ahead / c - 1.0)%float)
               (shift (- horizon) close) close in
  combine (map f_idx df)
          (map (fun v => if gtb v 0 then 1%Z else 0%Z) fwd).

(** The nine model inputs of a feature row, with the row's index label. *)
Definition X_row (r : frow) : Z * list float :=
  (f_idx r,
   [f_ret1 r; f_ret3 r; f_ret6 r; f_rsi r; f_ema_spread r;
    f_macd r; f_macd_sig r; f_price_bb_pos r; f_atr r]).

(** [X] and [y] of [price_model_signal] after the two [iloc] alignments. *)
Definition aligned_Xy (df_feat : list frow) (horizon : Z)
  : list (Z * list float) * list (Z * Z) :=
  let y := make_label df_feat horizon in
  let X := map X_row df_feat in
  let y := slice_to (Z.of_nat (List.length X)) y in
  let X := slice_to (Z.of_nat (List.length y)) X in
  (X, y).

(** The rows handed to [clf.fit]: [X.iloc[:-1]] and [y.iloc[:-1]]. *)
Definition training_rows (df_feat : list frow) (horizon : Z)
  : list (Z * list float) * list (Z * Z) :=
  let '(X, y) := aligned_Xy df_feat horizon in
  (slice_to (-1) X, slice_to (-1) y).

(** The row handed to [clf.predict_proba]: [X.iloc[[-1]]]. *)
Definition scored_row (df_feat : list frow) (horizon : Z)
  : option (Z * list float) :=
  last_opt (fst (aligned_Xy df_feat horizon)).

Definition price_model_signal (df : list candle) (horizon_bars : Z)
  (min_proba : float) : res (float * Z) :=
  df_feat <- build_features df ;;
  let '(X, y) := aligned_Xy df_feat horizon_bars in
  if (List.length X <? 50)%nat then Ok (0.5%float, 0%Z)
  else
    let '(X_train, y_train) := training_rows df_feat horizon_bars in
    clf <- sk_fit (map snd X_train) (map snd y_train) ;;
    match scored_row df_feat horizon_bars with
    | None => Raise IndexError
    | Some x =>
        proba_up <- clf (snd x) ;;
        if geb proba_up min_proba then Ok (proba_up, 1%Z)
        else if geb (1 - proba_up)%float min_proba then Ok (proba_up, 0%Z)
        else Ok (proba_up, (-1)%Z)
    end.

(** ** News and sentiment *)

(** [v.lower()] and [v.strip()] on a parsed value: only [str] has them. *)
Definition str_lower (v : json) : res string :=
  match v with
  | JStr s => Ok (lower s)
  | _ => Raise AttributeError
  end.

Definition str_strip (v : json) : res string :=
  match v with
  | JStr s => Ok (strip s)
  | _ => Raise AttributeError
  end.

(** [float(v)] on a parsed value. *)
Definition to_float (v : json) : res float :=
  match v with
  | JFloat f => Ok f
  | JInt z => float_of_int z
  | JBool b => Ok (if b then 1 else 0)%float
  | JStr s => float_of_str s
  | _ => Raise TypeError
  end.

(** [next((x['score'] for x in probs if x.get('label','').lower() == l), 0.0)]
    where [probs] is a dict: the loop variable [x] ranges over its keys, which
    are strings and have no [get], so the first key raises; only an empty
    dict reaches the default. *)
Definition next_score (probs : list (string * json)) : res float :=
  match probs with
  | [] => Ok 0.0%float
  | _ :: _ => Raise AttributeError
  end.

(** The body of the [try] block of [_hf_sentiment_finbert] after the
    response was parsed: the value appended to [scores]. *)
Definition score_of_output (out : json) : res float :=
  match out with
  | JList (JDict probs :: _) =>
      pos_score <- next_score probs ;;
      neg_score <- next_score probs ;;
      Ok (pos_score - neg_score)%float
  | JDict d =>
      match lookup "label" d, lookup "score" d with
      | Some l, Some s =>
          label <- str_lower l ;;
          sc <- to_float s ;;
          if contains "positive" label then Ok sc
          else if contains "negative" label then Ok (- sc)%float
          else Ok 0.0%float
      | _, _ => Ok 0.0%float
      end
  | _ => Ok 0.0%float
  end.

(** One turn of the loop: the request, the mapping, and the [except] branch
    that appends [0.0]. *)
Definition headline_score (response : res json) : float :=
  try_except (out <- response ;; score_of_output out) 0.0%float.

(** The [for t in texts] loop; [i] counts the requests already made. *)
Fixpoint finbert_loop (i : nat) (texts : list string) (hf_token : string)
  : list float :=
  match texts with
  | [] => []
  | t :: texts' =>
      headline_score (http_finbert i hf_token t)
        :: finbert_loop (S i) texts' hf_token
  end.

Definition _hf_sentiment_finbert (texts : list string) (hf_token : string)
  : list float :=
  match texts with
  | [] => []
  | _ :: _ =>
      if str_empty hf_token then [] else finbert_loop 0 texts hf_token
  end.

(** [dt] of the CryptoPanic loop: [None] when [pub] is not a string or does
    not parse. *)
Definition parse_published (pub : json) : option (Z * bool) :=
  match pub with
  | JStr s => fromisoformat (replace_Z s)
  | _ => None
  end.

(** [dt is None or dt >= cutoff]; comparing a datetime without offset with
    the offset-aware [cutoff] raises. *)
Definition is_recent (dt : option (Z * bool)) (cutoff : Z) : res bool :=
  match dt with
  | None => Ok true
  | Some (t, true) => Ok (cutoff <=? t)%Z
  | Some (_, false) => Raise TypeError
  end.

Definition old_marker : string := " (old)".

(** The [for idx, item in enumerate(results)] loop; [titles] is the list
    built so far. *)
Fixpoint cryptopanic_loop (results : list json) (cutoff max_headlines : Z)
  (titles : list string) : res (list string) :=
  match results with
  | [] => Ok titles
  | item :: rest =>
      t <- get item "title" ;;
      s <- get item "slug" ;;
      title <- str_strip (or_ (or_ t s) (JStr "")) ;;
      if str_empty title then cryptopanic_loop rest cutoff max_headlines titles
      else
        p <- get item "published_at" ;;
        c <- get item "created_at" ;;
        let pub := or_ (or_ p c) (JStr "") in
        recent <- is_recent (parse_published pub) cutoff ;;
        let titles' :=
          titles ++ [if recent then title else (title ++ old_marker)%string] in
        if (max_headlines <=? Z.of_nat (List.length titles'))%Z then Ok titles'
        else cryptopanic_loop rest cutoff max_headlines titles'
  end.

(** [len(results)] inside the [try] block: only sized values pass. *)
Definition sized (v : json) : res json :=
  match v with
  | JList _ | JDict _ | JStr _ => Ok v
  | _ => Raise TypeError
  end.

(** Microseconds in [timedelta(hours=h)]. *)
Definition hours (h : Z) : Z := (h * 3600000000)%Z.

(** The range of [datetime], 0001-01-01T00:00:00 to
    9999-12-31T23:59:59.999999, in microseconds from 1970-01-01T00:00:00. *)
Definition datetime_min : Z := (-62135596800000000)%Z.
Definition datetime_max : Z := 253402300799999999%Z.

(** [now - timedelta(hours=h)]: an [OverflowError] when the [timedelta] or
    the difference leaves the range; a difference inside the range is less
    than 999999999 days from [now]. *)
Definition hours_before (now h : Z) : res Z :=
  let t := (now - hours h)%Z in
  if ((datetime_min <=? t) && (t <=? datetime_max))%Z then Ok t
  else Raise OverflowError.

Definition _fetch_news_cryptopanic (api_key : string)
  (lookback_hours max_headlines : Z) (currency : string)
  : res (list string) :=
  if str_empty api_key then Ok []
  else
    match (data <- http_cryptopanic api_key currency ;;
           r <- get_or_empty data "results" ;;
           sized r) with
    | Raise _ => Ok []
    | Ok results =>
        cutoff <- hours_before now_utc lookback_hours ;;
        items <- iter results ;;
        cryptopanic_loop items cutoff max_headlines []
    end.

(** The list comprehension of [_fetch_news_newsapi]. *)
Fixpoint newsapi_titles (articles : list json) : res (list string) :=
  match articles with
  | [] => Ok []
  | a :: rest =>
      t <- get a "title" ;;
      if truthy t then
        title <- str_strip (or_ t (JStr "")) ;;
        titles <- newsapi_titles rest ;;
        Ok (title :: titles)
      else newsapi_titles rest
  end.

(** The [try] block of [_fetch_news_newsapi] with its handler. *)
Definition newsapi_request (api_key from : string) (max_headlines : Z)
  : list string :=
  try_except
    (data <- http_newsapi api_key from max_headlines ;;
     articles <- get_or_empty data "articles" ;;
     items <- iter articles ;;
     titles <- newsapi_titles items ;;
     Ok (slice_to max_headlines titles))
    [].

(** [from_ts] and the [from] parameter are computed before the [try]. *)
Definition _fetch_news_newsapi (api_key : string)
  (lookback_hours max_headlines : Z) : res (list string) :=
  if str_empty api_key then Ok []
  else
    dt <- hours_before now_utc lookback_hours ;;
    from_ts <- timestamp dt ;;
    from <- utcfromtimestamp from_ts ;;
    Ok (newsapi_request api_key (from ++ "Z") max_headlines).

(** The [news] sub-dictionary of the configuration. *)
Record news_config : Type := mk_news_config {
  lookback_hours : option Z;
  max_headlines : option Z;
  source : option string
}.

(** [d.get(key, default)] for an optional entry. *)
Definition get_default {A : Type} (entry : option A) (default : A) : A :=
  match entry with
  | Some v => v
  | None => default
  end.

Definition is_nil {A : Type} (l : list A) : bool :=
  match l with
  | [] => true
  | _ => false
  end.

(** The headline list [news_sentiment] assembles before scoring. *)
Definition news_titles (cfg_news : news_config) : res (list string) :=
  let lookback := get_default (lookback_hours cfg_news) 6%Z in
  let maxh := get_default (max_headlines cfg_news) 12%Z in
  let source := lower (get_default (source cfg_news) "cryptopanic") in
  let cp_key := getenv "CRYPTOPANIC_API_KEY" in
  let na_key := getenv "NEWSAPI_KEY" in
  titles <- (if String.eqb source "cryptopanic" && negb (str_empty cp_key)
             then _fetch_news_cryptopanic cp_key lookback maxh "ETH"
             else Ok []) ;;
  if is_nil titles && negb (str_empty na_key)
  then _fetch_news_newsapi na_key lookback maxh
  else Ok titles.

Definition news_sentiment (cfg_news : news_config) : res float :=
  let hf_key := getenv "HUGGINGFACE_API_TOKEN" in
  titles <- news_titles cfg_news ;;
  if is_nil titles then Ok 0.0%float
  else
    let scores := _hf_sentiment_finbert titles hf_key in
    if is_nil scores then Ok 0.0%float
    else Ok (np_mean scores).

(** ** The decision *)

Record config : Type := mk_config {
  pred_horizon_bars : option Z;
  min_price_model_proba : option float;
  news : option news_config;
  blend_weight_price : option float;
  blend_weight_news : option float;
  min_news_sentiment : option float;
  max_news_sentiment_for_short : option float
}.

Definition empty_news_config : news_config :=
  {| lookback_hours := None; max_headlines := None; source := None |}.

(** The [diag] dictionary. *)
Record diag : Type := mk_diag {
  diag_proba_up : float;
  diag_news_sent : float;
  diag_blended : float
}.

Definition price_comp (proba_up : float) : float :=
  ((proba_up - 0.5) * 2.0)%float.

Definition blended (cfg : config) (proba_up s_news : float) : float :=
  let w_p := get_default (blend_weight_price cfg) 0.6%float in
  let w_n := get_default (blend_weight_news cfg) 0.4%float in
  (w_p * price_comp proba_up + w_n * s_news)%float.

(** The [side] chosen by the two threshold tests. *)
Definition side_of (cfg : config) (proba_up s_news : float) : string :=
  let b := blended cfg proba_up s_news in
  let min_proba := get_default (min_price_model_proba cfg) 0.55%float in
  if geb b 0.1 && geb proba_up min_proba
     && geb s_news (get_default (min_news_sentiment cfg) 0.10%float)
  then "long"
  else if (b <=? -0.1)%float && geb (1 - proba_up)%float min_proba
          && (s_news <=? get_default (max_news_sentiment_for_short cfg)
                           (-0.10)%float)%float
  then "short"
  else "skip".

(** [decide_direction] from the point where the price signal is known. *)
Definition decide_from_signal (signal : float * Z) (cfg : config)
  : res (string * diag) :=
  let '(proba_up, _) := signal in
  s_news <- news_sentiment (get_default (news cfg) empty_news_config) ;;
  Ok (side_of cfg proba_up s_news,
      {| diag_proba_up := round3 proba_up;
         diag_news_sent := round3 s_news;
         diag_blended := round3 (blended cfg proba_up s_news) |}).

Definition decide_direction (df : list candle) (cfg : config)
  : res (string * diag) :=
  signal <- price_model_signal df
              (get_default (pred_horizon_bars cfg) 3%Z)
              (get_default (min_price_model_proba cfg) 0.55%float) ;;
  decide_from_signal signal cfg.

End Signals.

(** The world [ext] with the FinBERT service replaced by [finbert]. *)
Definition with_finbert (ext : External)
  (finbert : nat -> string -> string -> res json) : External :=
  {| ta_rsi := ta_rsi; ta_ema := ta_ema; ta_macd := ta_macd;
     ta_bollinger := ta_bollinger; ta_atr := ta_atr; sk_fit := sk_fit;
     np_mean := np_mean; float_of_str := float_of_str; getenv := getenv;
     now_utc := now_utc; fromisoformat := fromisoformat;
     timestamp := timestamp; utcfromtimestamp := utcfromtimestamp;
     http_cryptopanic := http_cryptopanic; http_newsapi := http_newsapi;
     http_finbert := finbert |}.

(** ** Concrete collaborators

    Small instances of [External] on which the definitions above can be
    run. *)

Module Sample.

Local Open Scope string_scope.
Local Open Scope list_scope.

Definition float_of_nat (n : nat) : float :=
  try_except (float_of_int (Z.of_nat n)) 0%float.

(** A plain left-to-right mean. *)
Definition mean (l : list float) : float :=
  (fold_left PrimFloat.add l 0 / float_of_nat (List.length l))%float.

(** [n] five-minute candles with closes 100, 101, ... *)
Definition candles (n : nat) : list candle :=
  map (fun i : nat =>
         let c := float_of_nat (100 + i) in
         {| c_idx := Z.of_nat i;
            c_ts := (1700000000000 + 300000 * Z.of_nat i)%Z;
            c_open := c; c_high := (c + 1)%float; c_low := (c - 1)%float;
            c_close := c; c_volume := 10%float |})
      (seq 0 n).

Definition constant (v : float) (col : list float) : list float :=
  map (fun _ => v) col.

(** The one timestamp the sample parser knows: 2024-01-01T00:00:00+00:00. *)
Definition parse_iso (s : string) : option (Z * bool) :=
  if String.eqb s "2024-01-01T00:00:00+00:00"
  then Some (1704067200000000%Z, true)
  else None.

(** A world given its environment, the two news responses and the FinBERT
    responses; indicators are flat, the classifier always answers [0.7],
    the clock shows 2024-06-01T00:00:00Z in the time zone UTC and every
    instant is printed as the start of that day. *)
Definition world (env : string -> string) (cryptopanic newsapi : res json)
  (finbert : nat -> string -> res json) : External :=
  {| ta_rsi := fun close _ => Ok (constant 50 close);
     ta_ema := fun close w => Ok (constant (float_of_nat (Z.to_nat w)) close);
     ta_macd := fun close => Ok (constant 1 close, constant 2 close);
     ta_bollinger := fun close => Ok (constant 50 close, constant 250 close);
     ta_atr := fun _ _ close => Ok (constant 3 close);
     sk_fit := fun _ _ => Ok (fun _ => Ok 0.7%float);
     np_mean := mean;
     float_of_str := fun _ => Raise ValueError;
     getenv := env;
     now_utc := 1717200000000000%Z;
     fromisoformat := parse_iso;
     timestamp := fun t => Ok (Z.quot t 1000000);
     utcfromtimestamp := fun _ => Ok "2024-06-01T00:00:00";
     http_cryptopanic := fun _ _ => cryptopanic;
     http_newsapi := fun _ _ _ => newsapi;
     http_finbert := fun i _ t => finbert i t |}.

Definition no_env (name : string) : string := "".

Definition news_keys (name : string) : string :=
  if String.eqb name "CRYPTOPANIC_API_KEY" then "cp-key"
  else if String.eqb name "NEWSAPI_KEY" then "na-key"
  else "".

Definition all_keys (name : string) : string :=
  if String.eqb name "HUGGINGFACE_API_TOKEN" then "hf-token"
  else news_keys name.

Definition unreachable : res json := Raise RequestException.

(** No credentials and no network. *)
Definition offline : External :=
  world no_env unreachable unreachable (fun _ _ => unreachable).

Definition post_fields (title published : string) : list (string * json) :=
  [("title", JStr title); ("published_at", JStr published)].

Definition post (title published : string) : json :=
  JDict (post_fields title published).

(** A CryptoPanic answer: one post of 2024-01-01, one without a date. *)
Definition cryptopanic_page : res json :=
  Ok (JDict [("results",
              JList [post "ETH breaks out " "2024-01-01T00:00:00Z";
                     post "Gas fees fall" "" ])]).

Definition newsapi_page : res json :=
  Ok (JDict [("articles",
              JList [JDict [("title", JStr " Ethereum rallies")];
                     JDict [("title", JNull)];
                     JDict [("title", JStr "Crypto market update")]])]).

(** FinBERT answers: the second request of a batch fails, the others
    return one label. *)
Definition finbert_flaky (i : nat) (text : string) : res json :=
  match i with
  | 1%nat => Raise RequestException
  | _ => Ok (JDict [("label", JStr "Positive"); ("score", JFloat 0.9)])
  end.

Definition finbert_steady (i : nat) (text : string) : res json :=
  Ok (JDict [("label", JStr "negative"); ("score", JFloat 0.25)]).

(** CryptoPanic answers, no FinBERT token. *)
Definition untokened : External :=
  world news_keys cryptopanic_page unreachable finbert_flaky.

(** Everything answers. *)
Definition online : External :=
  world all_keys cryptopanic_page newsapi_page finbert_flaky.

(** CryptoPanic is down, NewsAPI answers. *)
Definition fallback : External :=
  world all_keys unreachable newsapi_page finbert_steady.

Definition default_config : config :=
  {| pred_horizon_bars := None; min_price_model_proba := None;
     news := None; blend_weight_price := None; blend_weight_news := None;
     min_news_sentiment := None; max_news_sentiment_for_short := None |}.

Definition headlines (n : Z) : news_config :=
  {| lookback_hours := None; max_headlines := Some n; source := None |}.

(** The feature frame of sixty sample candles. *)
Definition features : list frow :=
  try_except (build_features (ext := offline) (candles 60)) [].

(** The row that [price_model_signal] scores in that frame. *)
Definition scored : Z * list float :=
  match scored_row features 3 with
  | Some x => x
  | None => (0%Z, [])
  end.

(** A hand-made feature row with index label [i] and close [100 + i]. *)
Definition row (i : nat) : frow :=
  let c := float_of_nat (100 + i) in
  {| f_idx := Z.of_nat i;
     f_ts := (1700000000000 + 300000 * Z.of_nat i)%Z;
     f_open := c; f_high := (c + 1)%float; f_low := (c - 1)%float;
     f_close := c; f_volume := 10%float;
     f_ret1 := 0.01%float; f_ret3 := 0.03%float; f_ret6 := 0.06%float;
     f_rsi := 50%float; f_ema20 := 20%float; f_ema50 := 50%float;
     f_macd := 1%float; f_macd_sig := 2%float;
     f_bb_low := 50%float; f_bb_high := 250%float; f_atr := 3%float;
     f_ema_spread := (-0.25)%float; f_price_bb_pos := 0.5%float |}.

(** A feature frame of [n] such rows, labelled 0, 1, ... *)
Definition frame (n : nat) : list frow := map row (seq 0 n).

End Sample.

(** ** Further definitions for the properties of the whole module *)

(** [l1] is [l2] with some elements left out, the order kept. *)
Inductive subseq {A : Type} : list A -> list A -> Prop :=
| subseq_nil : subseq [] []
| subseq_skip (x : A) (l1 l2 : list A) : subseq l1 l2 -> subseq l1 (x :: l2)
| subseq_keep (x : A) (l1 l2 : list A) :
    subseq l1 l2 -> subseq (x :: l1) (x :: l2).

(** The candle columns of a feature row. *)
Definition candle_of (r : frow) : candle :=
  {| c_idx := f_idx r; c_ts := f_ts r; c_open := f_open r;
     c_high := f_high r; c_low := f_low r; c_close := f_close r;
     c_volume := f_volume r |}.

Module Scenario.

Local Open Scope string_scope.
Local Open Scope list_scope.

(** The two feature rows that eight sample candles yield. *)
Definition short_features : list frow :=
  try_except (build_features (ext := Sample.offline) (Sample.candles 8)) [].

Definition first_short_feature : frow :=
  match short_features with
  | r :: _ => r
  | [] => Sample.row 0
  end.

End Scenario.

Module Broken.

(** The sample world with a classifier that refuses to fit. *)
Definition no_fit : External :=
  {| ta_rsi := @ta_rsi Sample.offline; ta_ema := @ta_ema Sample.offline;
     ta_macd := @ta_macd Sample.offline;
     ta_bollinger := @ta_bollinger Sample.offline;
     ta_atr := @ta_atr Sample.offline;
     sk_fit := fun _ _ => Raise ValueError;
     np_mean := @np_mean Sample.offline;
     float_of_str := @float_of_str Sample.offline;
     getenv := @getenv Sample.offline;
     now_utc := @now_utc Sample.offline;
     fromisoformat := @fromisoformat Sample.offline;
     timestamp := @timestamp Sample.offline;
     utcfromtimestamp := @utcfromtimestamp Sample.offline;
     http_cryptopanic := @http_cryptopanic Sample.offline;
     http_newsapi := @http_newsapi Sample.offline;
     http_finbert := @http_finbert Sample.offline |}.

End Broken.

(** [isinstance(v, dict)] *)
Definition is_object (v : json) : bool :=
  match v with
  | JDict _ => true
  | _ => false
  end.

Section Headlines.

Context {ext : External}.

Local Open Scope string_scope.
Local Open Scope list_scope.
Local Open Scope py_scope.

(** What one turn of the CryptoPanic loop does with [item]: nothing when
    the stripped title is empty, otherwise the headline it appends, marked
    when the item is old; or the exception the turn raises. *)
Definition headline_of (item : json) (cutoff : Z) : res (option string) :=
  t <- get item "title" ;;
  s <- get item "slug" ;;
  title <- str_strip (or_ (or_ t s) (JStr "")) ;;
  if str_empty title then Ok None
  else
    p <- get item "published_at" ;;
    c <- get item "created_at" ;;
    recent <- is_recent (parse_published (or_ (or_ p c) (JStr ""))) cutoff ;;
    Ok (Some (if recent then title else (title ++ old_marker)%string)).

(** The headlines of all items, in order. *)
Definition headlines_of (results : list json) (cutoff : Z) : list string :=
  flat_map (fun item => match headline_of item cutoff with
                        | Ok (Some t) => [t]
                        | _ => []
                        end) results.

End Headlines.

Module Malformed.

Local Open Scope string_scope.
Local Open Scope list_scope.



(** A NewsAPI answer with one article that is not an object. *)
Definition bad_article_page : res json :=
  Ok (JDict [("articles",
              JList [JDict [("title", JStr "Ethereum rallies")];
                     JInt 7])]).

Definition bad_article : External :=
  Sample.world Sample.all_keys Sample.unreachable bad_article_page
    Sample.finbert_steady.

(** FinBERT is down for every request. *)
Definition finbert_down : External :=
  Sample.world Sample.all_keys Sample.cryptopanic_page Sample.newsapi_page
    (fun _ _ => Sample.unreachable).

Definition newsapi_only : news_config :=
  {| lookback_hours := None; max_headlines := None;
     source := Some "NewsAPI" |}.

End Malformed.

Module Pages.

Local Open Scope string_scope.
Local Open Scope list_scope.

(** The fields and the results of [Sample.cryptopanic_page]. *)
Definition cryptopanic_results : list json :=
  [Sample.post "ETH breaks out " "2024-01-01T00:00:00Z";
   Sample.post "Gas fees fall" ""].

Definition cryptopanic_fields : list (string * json) :=
  [("results", JList cryptopanic_results)].


Definition bad_articles : list json :=
  [JDict [("title", JStr "Ethereum rallies")]; JInt 7].

End Pages.

(** ** One cycle of the polling loop of [ai_eth_30m_bot.py]

    The body of the [while True] loop of [run_loop], from the [try] to the
    [except]. What the cycle does to the outside is recorded as a list of
    events: the Telegram messages by their kind (their texts are left out)
    and the call of [open_position]. [tg] catches its own exceptions, and
    [now_str(tz)] has run before the loop with the same [tz], so neither
    raises inside the cycle. The steps of [open_position] itself (sizing,
    orders, its own messages) are not unfolded: the cycle only sees whether
    the call returns or raises. *)

(** A row of [ex.fetch_ohlcv]. *)
Record ohlcv : Type := mk_ohlcv {
  o_ts : Z;
  o_open : float;
  o_high : float;
  o_low : float;
  o_close : float;
  o_volume : float
}.

Class Exchange : Type := {
  (** [ex.fetch_positions([symbol])] *)
  fetch_positions : res json;
  (** [ex.fetch_ohlcv(symbol, timeframe=tf, limit=limit)] *)
  fetch_ohlcv : string -> Z -> res (list ohlcv);
  (** [open_position(ex, cfg, side)] *)
  open_position : string -> res unit
}.

(** The keys of the configuration that [run_loop] reads in a cycle, beside
    the keys of [signals.py]. *)
Record bot_config : Type := mk_bot_config {
  signals_config : config;
  bar_tf : option string;
  lookback_bars : option Z
}.

Inductive event : Type :=
| PositionAlreadyOpen
| SignalDiag (d : diag)
| OpenPosition (side : string)
| SkipLowConfidence
| LoopError (e : exn).

(** [pd.DataFrame(ohlcv, columns=[...])]: the rows in order under a range
    index. *)
Definition fetch_candles_df (rows : list ohlcv) : list candle :=
  map (fun ir : nat * ohlcv =>
         let r := snd ir in
         {| c_idx := Z.of_nat (fst ir); c_ts := o_ts r; c_open := o_open r;
            c_high := o_high r; c_low := o_low r; c_close := o_close r;
            c_volume := o_volume r |})
      (combine (seq 0 (List.length rows)) rows).

(** [df.tail(n)] *)
Definition tail {A : Type} (n : Z) (l : list A) : list A :=
  if (0 <=? n)%Z then skipn (List.length l - Z.to_nat n) l
  else skipn (Z.to_nat (- n)) l.

Section Bot.

Context {ext : External} {ex : Exchange}.

Local Open Scope string_scope.
Local Open Scope list_scope.
Local Open Scope py_scope.

(** [any(abs(float(p.get("contracts") or 0)) > 0 for p in positions)] *)
Fixpoint any_open (positions : list json) : res bool :=
  match positions with
  | [] => Ok false
  | p :: rest =>
      c <- get p "contracts" ;;
      x <- to_float (or_ c (JInt 0)) ;;
      if gtb (abs x) 0 then Ok true else any_open rest
  end.

Definition has_pos (positions : json) : res bool :=
  items <- iter positions ;;
  any_open items.

Definition run_cycle (cfg : bot_config) : list event :=
  match (positions <- fetch_positions ;; has_pos positions) with
  | Raise e => [LoopError e]
  | Ok true => [PositionAlreadyOpen]
  | Ok false =>
      let lookback := get_default (lookback_bars cfg) 200%Z in
      match (rows <- fetch_ohlcv (get_default (bar_tf cfg) "5m")
                       (Z.max 300 lookback) ;;
             decide_direction (tail lookback (fetch_candles_df rows))
               (signals_config cfg)) with
      | Raise e => [LoopError e]
      | Ok (side, d) =>
          SignalDiag d ::
          (if String.eqb side "long" || String.eqb side "short"
           then OpenPosition side ::
                match open_position side with
                | Ok _ => []
                | Raise e => [LoopError e]
                end
           else [SkipLowConfidence])
      end
  end.

End Bot.

Module Desk.

Local Open Scope string_scope.
Local Open Scope list_scope.

Definition bars (n : nat) : list ohlcv :=
  map (fun c => {| o_ts := c_ts c; o_open := c_open c; o_high := c_high c;
                   o_low := c_low c; o_close := c_close c;
                   o_volume := c_volume c |})
      (Sample.candles n).

(** An exchange without position that serves as many bars as asked for. *)
Definition flat : Exchange :=
  {| fetch_positions := Ok (JList [JDict [("contracts", JInt 0)]]);
     fetch_ohlcv := fun _ limit => Ok (bars (Z.to_nat limit));
     open_position := fun _ => Ok tt |}.

Definition short_fields : list (string * json) :=
  [("symbol", JStr "ETH/USDT:USDT"); ("contracts", JFloat (-2))].

(** An exchange that reports a short position of two contracts. *)
Definition in_short : Exchange :=
  {| fetch_positions := Ok (JList [JDict short_fields]);
     fetch_ohlcv := fun _ limit => Ok (bars (Z.to_nat limit));
     open_position := fun _ => Ok tt |}.

Definition config (lookback : option Z) : bot_config :=
  {| signals_config := Sample.default_config; bar_tf := None;
     lookback_bars := lookback |}.

End Desk.

Module Hosted.

Local Open Scope string_scope.
Local Open Scope list_scope.

(** FinBERT answering every request with a list of lists of label
    objects. *)
Definition nested_labels (i : nat) (text : string) : res json :=
  Ok (JList [JList [JDict [("label", JStr "positive"); ("score", JFloat 0.9)];
                    JDict [("label", JStr "neutral"); ("score", JFloat 0.07)];
                    JDict [("label", JStr "negative");
                           ("score", JFloat 0.03)]]]).

Definition lists : External :=
  Sample.world Sample.all_keys Sample.cryptopanic_page Sample.newsapi_page
    nested_labels.

End Hosted.

(** The indicator library on short series. *)

Module Library.

(** [AverageTrueRange._run] fills [atr = np.zeros(len(close))] and first
    assigns [atr[window - 1]]: with fewer than [window = 14] rows this is an
    [IndexError]. From 14 rows on the sample keeps a flat series. *)
Definition average_true_range (high low close : list float)
  : res (list float) :=
  if (List.length close <? 14)%nat then Raise IndexError
  else Ok (Sample.constant 3 close).

(** [Sample.offline] with this indicator. *)
Definition world : External :=
  {| ta_rsi := @ta_rsi Sample.offline;
     ta_ema := @ta_ema Sample.offline;
     ta_macd := @ta_macd Sample.offline;
     ta_bollinger := @ta_bollinger Sample.offline;
     ta_atr := average_true_range;
     sk_fit := @sk_fit Sample.offline;
     np_mean := @np_mean Sample.offline;
     float_of_str := @float_of_str Sample.offline;
     getenv := @getenv Sample.offline;
     now_utc := @now_utc Sample.offline;
     fromisoformat := @fromisoformat Sample.offline;
     timestamp := @timestamp Sample.offline;
     utcfromtimestamp := @utcfromtimestamp Sample.offline;
     http_cryptopanic := @http_cryptopanic Sample.offline;
     http_newsapi := @http_newsapi Sample.offline;
     http_finbert := @http_finbert Sample.offline |}.

End Library.

Module Cases.

Local Open Scope string_scope.
Local Open Scope list_scope.

(** FinBERT answering every request with a positive label of score 0.5. *)
Definition finbert_half (i : nat) (text : string) : res json :=
  Ok (JDict [("label", JStr "positive"); ("score", JFloat 0.5)]).

(** Everything answers: the classifier says 0.7 and every headline scores
    0.5. *)
Definition bullish : External :=
  Sample.world Sample.all_keys Sample.cryptopanic_page Sample.newsapi_page
    finbert_half.



(** A title of white space outside ASCII: U+00A0 and U+2003. *)
Definition blank_title : string :=
  String (ascii_of_nat 194) (String (ascii_of_nat 160)
    (String (ascii_of_nat 226) (String (ascii_of_nat 128)
      (String (ascii_of_nat 131) EmptyString)))).

(** U+200B, which [str.isspace()] rejects. *)
Definition zero_width_space : string :=
  String (ascii_of_nat 226) (String (ascii_of_nat 128)
    (String (ascii_of_nat 139) EmptyString)).

(** A look-back of twenty million hours, more than the years since
    0001-01-01. *)
Definition long_lookback : news_config :=
  {| lookback_hours := Some 20000000%Z; max_headlines := None;
     source := None |}.

End Cases.

(** * Properties *)

(** ** The runtime model on examples *)

(** [round(x, 3)] rounds the exact binary value, ties to even. *)
Example round3_examples :
  round3 0.0625 = 0.062%float /\
  round3 0.1875 = 0.188%float /\
  round3 2.675 = 2.675%float /\
  round3 123456.78949 = 123456.789%float /\
  round3 (-0.0004) = (-0.0)%float /\
  round3 1e300 = 1e300%float /\
  round3 nan = nan.
Proof. repeat split; vm_compute; reflexivity. Qed.

Example string_examples :
  strip "  ETH up  " = "ETH up"%string /\
  strip Cases.blank_title = ""%string /\
  strip (Cases.blank_title ++ "ETH up" ++ Cases.blank_title)
    = "ETH up"%string /\
  strip (Cases.zero_width_space ++ " ") = Cases.zero_width_space /\
  characters (Cases.blank_title ++ "up")
    = [String (ascii_of_nat 194) (String (ascii_of_nat 160) "");
       String (ascii_of_nat 226)
         (String (ascii_of_nat 128) (String (ascii_of_nat 131) ""));
       "u"; "p"]%string /\
  lower "Positive" = "positive"%string /\
  contains "negative" "very negative" = true /\
  contains "positive" "neutral" = false /\
  replace_Z "2024-01-01T00:00:00Z" = "2024-01-01T00:00:00+00:00"%string.
Proof. repeat split; reflexivity. Qed.

(** A single label object is mapped to a signed score; a list of label
    objects makes the generator call [get] on a key and scores 0.0, as does
    any other shape and any failed request. *)
Example headline_score_examples :
  let score := headline_score (ext := Sample.offline) in
  score (Ok (JDict [("label", JStr "Positive"); ("score", JFloat 0.9)]%string))
    = 0.9%float /\
  score (Ok (JDict [("label", JStr "negative"); ("score", JInt 1)]%string))
    = (-1)%float /\
  score (Ok (JDict [("label", JStr "neutral"); ("score", JFloat 0.8)]%string))
    = 0.0%float /\
  score (Ok (JList [JDict [("label", JStr "positive");
                           ("score", JFloat 0.9)]%string]))
    = 0.0%float /\
  score (Ok (JList [JList [JDict [("label", JStr "positive");
                                  ("score", JFloat 0.9)]%string]]))
    = 0.0%float /\
  score (Raise RequestException) = 0.0%float.
Proof. repeat split; vm_compute; reflexivity. Qed.

(** A title of white space is passed over before its date is looked at,
    also when the white space lies outside ASCII; a zero-width space is a
    title. *)
Example blank_title_examples :
  let loop (title : string) :=
    cryptopanic_loop (ext := Sample.online)
      [Sample.post title "2024-01-01T00:00:00Z"]
      (@now_utc Sample.online - 6 * 3600000000) 12 [] in
  loop "  "%string = Ok [] /\
  loop Cases.blank_title = Ok [] /\
  loop Cases.zero_width_space
    = Ok [(Cases.zero_width_space ++ " (old)")%string].
Proof. repeat split; vm_compute; reflexivity. Qed.

(** ** Lists and columns *)

Lemma nth_error_combine {A B : Type} (l1 : list A) (l2 : list B) (i : nat) :
  nth_error (combine l1 l2) i =
  match nth_error l1 i, nth_error l2 i with
  | Some a, Some b => Some (a, b)
  | _, _ => None
  end.
Proof.
  revert l2 i.
  induction l1 as [|a l1 IH]; intros [|b l2] [|i]; simpl; try reflexivity.
  - destruct (nth_error l1 i); reflexivity.
  - apply IH.
Qed.

Lemma nth_error_zip_with {A B C : Type} (f : A -> B -> C)
  (l1 : list A) (l2 : list B) (i : nat) :
  nth_error (zip_with f l1 l2) i =
  match nth_error l1 i, nth_error l2 i with
  | Some a, Some b => Some (f a b)
  | _, _ => None
  end.
Proof.
  unfold zip_with.
  rewrite nth_error_map, nth_error_combine.
  destruct (nth_error l1 i), (nth_error l2 i); reflexivity.
Qed.

Lemma length_zip_with {A B C : Type} (f : A -> B -> C)
  (l1 : list A) (l2 : list B) :
  List.length (zip_with f l1 l2) = Nat.min (List.length l1) (List.length l2).
Proof.
  unfold zip_with. now rewrite length_map, length_combine.
Qed.

Lemma length_shift (periods : Z) (col : list float) :
  List.length (shift periods col) = List.length col.
Proof.
  unfold shift. now rewrite length_map, length_seq.
Qed.

(** Looking [h] rows ahead from one of the last [h] rows finds NaN. *)
Lemma shift_tail_nan (h : Z) (col : list float) (i : nat) :
  (i < List.length col)%nat ->
  (Z.of_nat (List.length col) - h <= Z.of_nat i)%Z ->
  nth_error (shift (- h) col) i = Some nan.
Proof.
  intros Hi Htail.
  unfold shift.
  rewrite nth_error_map, nth_error_seq.
  apply Nat.ltb_lt in Hi. rewrite Hi. simpl.
  destruct (0 <=? Z.of_nat i - - h)%Z; simpl; [|reflexivity].
  destruct (Z.ltb_spec (Z.of_nat i - - h) (Z.of_nat (List.length col)));
    [lia | reflexivity].
Qed.

(** NaN propagates through the forward return, and NaN is not above zero. *)
Lemma nan_forward_return (c : float) : gtb (nan / c - 1.0)%float 0 = false.
Proof.
  unfold gtb.
  rewrite ltb_spec, sub_spec, div_spec.
  change (Prim2SF nan) with S754_nan.
  unfold SF64div, SFdiv.
  destruct (Prim2SF c); reflexivity.
Qed.

(** ** The label generator *)

Lemma length_make_label (df : list frow) (horizon : Z) :
  List.length (make_label df horizon) = List.length df.
Proof.
  unfold make_label.
  rewrite length_combine, !length_map, length_zip_with, length_shift, length_map.
  lia.
Qed.

Lemma index_make_label (df : list frow) (horizon : Z) :
  map fst (make_label df horizon) = map f_idx df.
Proof.
  unfold make_label.
  apply nth_error_ext. intro i.
  rewrite nth_error_map, nth_error_combine, !nth_error_map, nth_error_zip_with.
  rewrite nth_error_map.
  destruct (nth_error df i) as [r|] eqn:Hr; simpl; [|reflexivity].
  assert (Hi : (i < List.length (map f_close df))%nat).
  { rewrite length_map. apply nth_error_Some. congruence. }
  rewrite <- (length_shift (- horizon)) in Hi.
  apply nth_error_Some in Hi.
  destruct (nth_error (shift (- horizon) (map f_close df)) i); [reflexivity|].
  congruence.
Qed.

Lemma make_label_binary (df : list frow) (horizon : Z) (i : nat) (l : Z) :
  nth_error (map snd (make_label df horizon)) i = Some l ->
  l = 0%Z \/ l = 1%Z.
Proof.
  unfold make_label.
  rewrite nth_error_map, nth_error_combine, !nth_error_map.
  destruct (nth_error df i); simpl; [|discriminate].
  destruct (nth_error (zip_with _ _ _) i) as [v|]; simpl; [|discriminate].
  intros [= <-]. destruct (gtb v 0); auto.
Qed.

Lemma make_label_tail (df : list frow) (horizon : Z) (i : nat) :
  (i < List.length df)%nat ->
  (Z.of_nat (List.length df) - horizon <= Z.of_nat i)%Z ->
  nth_error (map snd (make_label df horizon)) i = Some 0%Z.
Proof.
  intros Hi Htail.
  unfold make_label.
  rewrite nth_error_map, nth_error_combine, !nth_error_map, nth_error_zip_with.
  rewrite shift_tail_nan by (rewrite length_map; assumption).
  rewrite nth_error_map.
  destruct (nth_error df i) as [r|] eqn:Hr.
  - simpl. now rewrite nan_forward_return.
  - apply nth_error_None in Hr. lia.
Qed.

(** C9: for every feature frame and every horizon of at least one bar,
    [make_label] returns a series as long as its input, on the same index,
    whose entries are all 0 or 1, and each of the last [horizon] entries is
    0: the forward return of those rows is NaN, and NaN is not greater than
    zero. *)
Theorem make_label_total_tail_zero (df : list frow) (horizon : Z) :
  (1 <= horizon)%Z ->
  List.length (make_label df horizon) = List.length df /\
  map fst (make_label df horizon) = map f_idx df /\
  (forall i l, nth_error (map snd (make_label df horizon)) i = Some l ->
               l = 0%Z \/ l = 1%Z) /\
  (forall i, (i < List.length df)%nat ->
             (Z.of_nat (List.length df) - horizon <= Z.of_nat i)%Z ->
             nth_error (map snd (make_label df horizon)) i = Some 0%Z).
Proof.
  intros _. repeat split.
  - apply length_make_label.
  - apply index_make_label.
  - apply make_label_binary.
  - apply make_label_tail.
Qed.

Lemma make_label_total_tail_zero_witness :
  (1 <= 3)%Z /\
  nth_error (map snd (make_label Sample.features 3)) 51 = Some 0%Z.
Proof.
  split; [lia|].
  apply (make_label_total_tail_zero Sample.features 3); [lia| |];
    vm_compute; [lia | discriminate].
Defined.

(** ** The direction classifier *)

Lemma slice_to_length {A : Type} (l : list A) :
  slice_to (Z.of_nat (List.length l)) l = l.
Proof.
  unfold slice_to.
  destruct (Z.leb_spec 0 (Z.of_nat (List.length l))); [|lia].
  rewrite Nat2Z.id. apply firstn_all.
Qed.

Lemma slice_to_init {A : Type} (init : list A) (x : A) :
  slice_to (-1) (init ++ [x]) = init.
Proof.
  unfold slice_to. simpl.
  rewrite length_app. simpl.
  replace (List.length init + 1 - Pos.to_nat 1)%nat
    with (List.length init + 0)%nat by lia.
  rewrite firstn_app_2. simpl. apply app_nil_r.
Qed.

Lemma slice_to_minus_one {A : Type} (l : list A) :
  slice_to (-1) l = firstn (List.length l - 1) l.
Proof. reflexivity. Qed.

Lemma aligned_Xy_eq (df_feat : list frow) (horizon : Z) :
  aligned_Xy df_feat horizon = (map X_row df_feat, make_label df_feat horizon).
Proof.
  unfold aligned_Xy.
  assert (E : List.length (map X_row df_feat)
              = List.length (make_label df_feat horizon))
    by now rewrite length_make_label, length_map.
  rewrite E, slice_to_length, <- E, slice_to_length.
  reflexivity.
Qed.

Lemma training_rows_init (init : list frow) (r : frow) (horizon : Z) :
  training_rows (init ++ [r]) horizon =
  (map X_row init,
   firstn (List.length init) (make_label (init ++ [r]) horizon)).
Proof.
  unfold training_rows.
  rewrite aligned_Xy_eq, map_app. simpl.
  rewrite slice_to_init, slice_to_minus_one, length_make_label, length_app.
  simpl. now replace (List.length init + 1 - 1)%nat with (List.length init) by lia.
Qed.

Lemma scored_row_last (init : list frow) (r : frow) (horizon : Z) :
  scored_row (init ++ [r]) horizon = Some (X_row r).
Proof.
  unfold scored_row, last_opt.
  rewrite aligned_Xy_eq. cbn [fst].
  rewrite map_app. cbn [map]. now rewrite rev_unit.
Qed.

Lemma index_X_rows (df : list frow) : map fst (map X_row df) = map f_idx df.
Proof. rewrite map_map. reflexivity. Qed.

Section Classifier.

Context {ext : External}.

Local Open Scope py_scope.

(** With at least fifty rows the function fits on [training_rows] and
    scores [scored_row]. *)
Lemma price_model_signal_fitted (df : list candle) (horizon : Z)
  (min_proba : float) (df_feat : list frow) :
  build_features df = Ok df_feat ->
  (50 <= List.length (fst (aligned_Xy df_feat horizon)))%nat ->
  price_model_signal df horizon min_proba =
  (clf <- sk_fit (map snd (fst (training_rows df_feat horizon)))
                 (map snd (snd (training_rows df_feat horizon))) ;;
   match scored_row df_feat horizon with
   | None => Raise IndexError
   | Some x =>
       proba_up <- clf (snd x) ;;
       Ok (proba_up,
           if geb proba_up min_proba then 1%Z
           else if geb (1 - proba_up)%float min_proba then 0%Z
           else (-1)%Z)
   end).
Proof.
  intros Hfeat Hlen.
  unfold price_model_signal. rewrite Hfeat. cbn [bind].
  destruct (aligned_Xy df_feat horizon) as [X y].
  cbn [fst] in Hlen.
  destruct (Nat.ltb_spec (List.length X) 50); [lia|].
  destruct (training_rows df_feat horizon) as [X_train y_train].
  cbn [fst snd].
  destruct (sk_fit (map snd X_train) (map snd y_train)) as [clf|];
    cbn [bind]; [|reflexivity].
  destruct (scored_row df_feat horizon) as [x|]; [|reflexivity].
  destruct (clf (snd x)) as [p|]; cbn [bind]; [|reflexivity].
  destruct (geb p min_proba); [reflexivity|].
  destruct (geb (1 - p)%float min_proba); reflexivity.
Qed.

End Classifier.

Section DirectionClassifier.

Context {ext : External}.

Local Open Scope py_scope.

(** C1 (as amended): for every feature frame with distinct index labels and
    every horizon of at least one bar, each of the last [horizon] rows
    carries the label 0 (a defined value), the training set is every aligned
    row except the last one, with its label, the scored row is that last
    row, and it is not among the training rows; with fifty rows or more this
    training set is what [price_model_signal] fits and that row is what it
    scores. *)
Theorem training_set_drops_only_scored_row
  (init : list frow) (r_last : frow) (horizon : Z) :
  (1 <= horizon)%Z ->
  NoDup (map f_idx (init ++ [r_last])) ->
  let df_feat := init ++ [r_last] in
  let labels := make_label df_feat horizon in
  (forall i, (i < List.length df_feat)%nat ->
             (Z.of_nat (List.length df_feat) - horizon <= Z.of_nat i)%Z ->
             nth_error (map snd labels) i = Some 0%Z) /\
  training_rows df_feat horizon =
    (map X_row init, firstn (List.length init) labels) /\
  scored_row df_feat horizon = Some (X_row r_last) /\
  ~ In (f_idx r_last) (map fst (fst (training_rows df_feat horizon))) /\
  (forall df min_proba,
     build_features df = Ok df_feat ->
     (50 <= List.length df_feat)%nat ->
     price_model_signal df horizon min_proba =
     (clf <- sk_fit (map snd (map X_row init))
                    (map snd (firstn (List.length init) labels)) ;;
      proba_up <- clf (snd (X_row r_last)) ;;
      Ok (proba_up,
          if geb proba_up min_proba then 1%Z
          else if geb (1 - proba_up)%float min_proba then 0%Z
          else (-1)%Z))).
Proof.
  intros _ Hnodup df_feat labels.
  split; [|split; [|split; [|split]]].
  - apply make_label_tail.
  - apply training_rows_init.
  - apply scored_row_last.
  - subst df_feat. rewrite training_rows_init. cbn [fst].
    rewrite index_X_rows.
    rewrite map_app in Hnodup. cbn [map] in Hnodup.
    apply NoDup_remove_2 in Hnodup.
    now rewrite app_nil_r in Hnodup.
  - intros df min_proba Hfeat Hlen.
    rewrite (price_model_signal_fitted df horizon min_proba df_feat Hfeat).
    + subst df_feat labels.
      rewrite training_rows_init, scored_row_last. reflexivity.
    + rewrite aligned_Xy_eq. cbn [fst]. now rewrite length_map.
Qed.

(** The indicators are computed before the rows are counted: what the
    last of them raises leaves [price_model_signal]. *)
Lemma price_model_signal_indicator_error (df : list candle) (horizon : Z)
  (min_proba : float) (rsi ema20 ema50 : list float)
  (macd bands : list float * list float) (e : exn) :
  let close := map c_close df in
  ta_rsi close 14 = Ok rsi ->
  ta_ema close 20 = Ok ema20 ->
  ta_ema close 50 = Ok ema50 ->
  ta_macd close = Ok macd ->
  ta_bollinger close = Ok bands ->
  ta_atr (map c_high df) (map c_low df) close = Raise e ->
  build_features df = Raise e /\
  price_model_signal df horizon min_proba = Raise e.
Proof.
  intros close Hrsi H20 H50 Hmacd Hbb Hatr.
  assert (Hfeat : build_features df = Raise e).
  { unfold build_features. fold close.
    rewrite Hrsi. cbn [bind]. rewrite H20. cbn [bind].
    rewrite H50. cbn [bind]. rewrite Hmacd. cbn [bind].
    destruct macd as [m ms]. rewrite Hbb. cbn [bind].
    destruct bands as [lo hi]. rewrite Hatr. reflexivity. }
  split; [exact Hfeat|].
  unfold price_model_signal. now rewrite Hfeat.
Qed.

(** C8: with at least fifty aligned rows, a fitted classifier and its
    probability [proba_up] for the scored row, [price_model_signal] returns
    [proba_up] with flag 1 when [proba_up >= min_proba], else 0 when
    [1 - proba_up >= min_proba], else -1; and [decide_direction] goes on
    with [proba_up] alone, whatever the flag is. *)
Theorem price_model_signal_flag (df : list candle) (horizon : Z)
  (min_proba : float) (df_feat : list frow) (clf : classifier)
  (x : Z * list float) (proba_up : float) :
  build_features df = Ok df_feat ->
  (50 <= List.length (fst (aligned_Xy df_feat horizon)))%nat ->
  sk_fit (map snd (fst (training_rows df_feat horizon)))
         (map snd (snd (training_rows df_feat horizon))) = Ok clf ->
  scored_row df_feat horizon = Some x ->
  clf (snd x) = Ok proba_up ->
  price_model_signal df horizon min_proba =
    Ok (proba_up,
        if geb proba_up min_proba then 1%Z
        else if geb (1 - proba_up)%float min_proba then 0%Z
        else (-1)%Z) /\
  (forall cfg flag flag',
     decide_from_signal (proba_up, flag) cfg
     = decide_from_signal (proba_up, flag') cfg) /\
  (forall cfg flag,
     get_default (pred_horizon_bars cfg) 3%Z = horizon ->
     get_default (min_price_model_proba cfg) 0.55%float = min_proba ->
     decide_direction df cfg = decide_from_signal (proba_up, flag) cfg).
Proof.
  intros Hfeat Hlen Hfit Hrow Hproba.
  assert (Hsig : price_model_signal df horizon min_proba =
                 Ok (proba_up,
                     if geb proba_up min_proba then 1%Z
                     else if geb (1 - proba_up)%float min_proba then 0%Z
                     else (-1)%Z)).
  { rewrite (price_model_signal_fitted df horizon min_proba df_feat Hfeat Hlen).
    rewrite Hfit. cbn [bind]. rewrite Hrow, Hproba. reflexivity. }
  split; [exact Hsig|]. split.
  - intros cfg flag flag'. reflexivity.
  - intros cfg flag Hh Hp.
    unfold decide_direction. rewrite Hh, Hp, Hsig. reflexivity.
Qed.

End DirectionClassifier.

Lemma training_set_drops_only_scored_row_witness :
  (1 <= 3)%Z /\
  NoDup (map f_idx ([Sample.row 0; Sample.row 1] ++ [Sample.row 2])) /\
  scored_row ([Sample.row 0; Sample.row 1] ++ [Sample.row 2]) 3
    = Some (X_row (Sample.row 2)).
Proof.
  assert (Hnodup : NoDup (map f_idx
                            ([Sample.row 0; Sample.row 1] ++ [Sample.row 2]))).
  { repeat constructor; simpl; intuition discriminate. }
  split; [lia|]. split; [exact Hnodup|].
  apply (training_set_drops_only_scored_row (ext := Sample.offline)
           [Sample.row 0; Sample.row 1] (Sample.row 2) 3); [lia | exact Hnodup].
Defined.

(** C1 as stated fails: in a frame of fifty rows with horizon 3, the row at
    position 48 is one of the last three rows, and it is in the training
    set, with label 0. *)
Lemma tail_row_in_training_set :
  let df_feat := Sample.frame 50 in
  exists (i : nat) (r : frow),
    (List.length df_feat - 3 <= i)%nat /\
    nth_error df_feat i = Some r /\
    In (f_idx r) (map fst (fst (training_rows df_feat 3))) /\
    In (f_idx r, 0%Z) (snd (training_rows df_feat 3)).
Proof.
  exists 48%nat, (Sample.row 48).
  split; [vm_compute; lia|].
  split; [reflexivity|].
  split.
  - apply in_map_iff. exists (X_row (Sample.row 48)).
    split; [reflexivity|].
    apply (nth_error_In _ 48). vm_compute. reflexivity.
  - apply (nth_error_In _ 48). vm_compute. reflexivity.
Qed.

(** C3: ten candles are to give the neutral [(0.5, 0)]. The feature builder
    runs before the test [len(X) < 50], and the ATR of the indicator
    library raises [IndexError] on fewer than 14 rows: with ten candles
    [build_features], [price_model_signal] and [decide_direction] raise,
    while from 14 candles on the same short input gives the neutral
    default. *)
Lemma ten_candles_raise :
  List.length (Sample.candles 10) = 10%nat /\
  build_features (ext := Library.world) (Sample.candles 10)
    = Raise IndexError /\
  price_model_signal (ext := Library.world) (Sample.candles 10) 3 0.55
    = Raise IndexError /\
  decide_direction (ext := Library.world) (Sample.candles 10)
    Sample.default_config = Raise IndexError /\
  price_model_signal (ext := Library.world) (Sample.candles 14) 3 0.55
    = Ok (0.5%float, 0%Z).
Proof.
  destruct (price_model_signal_indicator_error (ext := Library.world)
              (Sample.candles 10) 3 0.55 _ _ _ _ _ IndexError
              eq_refl eq_refl eq_refl eq_refl eq_refl eq_refl)
    as [Hfeat Hsig].
  split; [reflexivity|]. split; [exact Hfeat|]. split; [exact Hsig|].
  split; [|vm_compute; reflexivity].
  unfold decide_direction.
  change (get_default (pred_horizon_bars Sample.default_config) 3%Z)
    with 3%Z.
  change (get_default (min_price_model_proba Sample.default_config)
            0.55%float) with 0.55%float.
  now rewrite Hsig.
Qed.

Lemma price_model_signal_flag_witness :
  build_features (ext := Sample.offline) (Sample.candles 60)
    = Ok Sample.features /\
  (50 <= List.length (fst (aligned_Xy Sample.features 3)))%nat /\
  scored_row Sample.features 3 = Some Sample.scored /\
  price_model_signal (ext := Sample.offline) (Sample.candles 60) 3 0.55
    = Ok (0.7%float, 1%Z).
Proof.
  assert (Hfeat : build_features (ext := Sample.offline) (Sample.candles 60)
                  = Ok Sample.features) by (vm_compute; reflexivity).
  assert (Hlen : (50 <= List.length (fst (aligned_Xy Sample.features 3)))%nat)
    by (vm_compute; lia).
  assert (Hrow : scored_row Sample.features 3 = Some Sample.scored)
    by (vm_compute; reflexivity).
  split; [exact Hfeat|]. split; [exact Hlen|]. split; [exact Hrow|].
  exact (proj1 (price_model_signal_flag
                  (ext := Sample.offline) (Sample.candles 60) 3 0.55
                  Sample.features (fun _ => Ok 0.7%float) Sample.scored
                  0.7%float Hfeat Hlen eq_refl Hrow eq_refl)).
Defined.

(** ** The sentiment scorer *)

Section SentimentScorer.

Context {ext : External}.

Local Open Scope string_scope.
Local Open Scope list_scope.
Local Open Scope py_scope.

Lemma length_finbert_loop (texts : list string) (hf_token : string) (i : nat) :
  List.length (finbert_loop i texts hf_token) = List.length texts.
Proof.
  revert i. induction texts as [|t texts IH]; intro i; simpl; [reflexivity|].
  now rewrite IH.
Qed.

Lemma nth_error_finbert_loop (texts : list string) (hf_token : string)
  (i k : nat) :
  nth_error (finbert_loop i texts hf_token) k =
  option_map (fun t => headline_score (http_finbert (i + k) hf_token t))
             (nth_error texts k).
Proof.
  revert i k. induction texts as [|t texts IH]; intros i [|k]; simpl;
    try reflexivity.
  - now rewrite Nat.add_0_r.
  - rewrite IH. now replace (S i + k)%nat with (i + S k)%nat by lia.
Qed.

Lemma scorer_is_loop (texts : list string) (hf_token : string) :
  str_empty hf_token = false ->
  _hf_sentiment_finbert texts hf_token = finbert_loop 0 texts hf_token.
Proof.
  intro Htok. unfold _hf_sentiment_finbert.
  destruct texts; [reflexivity|]. now rewrite Htok.
Qed.

Lemma scorer_without_token (texts : list string) :
  _hf_sentiment_finbert texts "" = [].
Proof. destruct texts; reflexivity. Qed.

Lemma nth_error_scorer (texts : list string) (hf_token : string) (k : nat) :
  str_empty hf_token = false ->
  nth_error (_hf_sentiment_finbert texts hf_token) k =
  option_map (fun t => headline_score (http_finbert k hf_token t))
             (nth_error texts k).
Proof.
  intro Htok. rewrite (scorer_is_loop _ _ Htok).
  apply nth_error_finbert_loop.
Qed.

End SentimentScorer.

(** C2 (as amended): with a non-empty API token, for every list of headline
    texts the score list has the length of the input and the score at
    position [k] is the one computed from the answer to the request for the
    [k]-th text; a failure of that request or of the mapping of its answer
    yields 0.0 at position [k]; and replacing the service's behaviour at
    position [k] alone leaves the score at every other position as it was. *)
Theorem sentiment_scores_aligned (ext : External) (texts : list string)
  (hf_token : string) :
  str_empty hf_token = false ->
  let scores := _hf_sentiment_finbert texts hf_token in
  List.length scores = List.length texts /\
  (forall k t, nth_error texts k = Some t ->
     nth_error scores k = Some (headline_score (http_finbert k hf_token t))) /\
  (forall k t e, nth_error texts k = Some t ->
     (out <- http_finbert k hf_token t ;; score_of_output out)%py = Raise e ->
     nth_error scores k = Some 0.0%float) /\
  (forall k finbert,
     (forall j t, j <> k -> finbert j hf_token t = http_finbert j hf_token t) ->
     forall j, j <> k ->
       nth_error (_hf_sentiment_finbert (ext := with_finbert ext finbert)
                    texts hf_token) j
       = nth_error scores j).
Proof.
  intros Htok scores. subst scores.
  split; [|split; [|split]].
  - rewrite (scorer_is_loop _ _ Htok). apply length_finbert_loop.
  - intros k t Hk. rewrite (nth_error_scorer _ _ _ Htok), Hk. reflexivity.
  - intros k t e Hk Hfail.
    rewrite (nth_error_scorer _ _ _ Htok), Hk. simpl.
    unfold headline_score. now rewrite Hfail.
  - intros k finbert Hsame j Hj.
    rewrite !(nth_error_scorer _ _ _ Htok).
    destruct (nth_error texts j) as [t|]; [|reflexivity].
    simpl. unfold headline_score.
    change (@http_finbert (with_finbert ext finbert)) with finbert.
    now rewrite (Hsame j t Hj).
Qed.

Lemma sentiment_scores_aligned_witness :
  str_empty "hf-token" = false /\
  List.length (_hf_sentiment_finbert (ext := Sample.online)
                 ["up"; "down"; "flat"]%string "hf-token") = 3%nat /\
  nth_error (_hf_sentiment_finbert (ext := Sample.online)
               ["up"; "down"; "flat"]%string "hf-token") 1
    = Some 0.0%float.
Proof.
  split; [reflexivity|].
  destruct (sentiment_scores_aligned Sample.online
              ["up"; "down"; "flat"]%string "hf-token" eq_refl)
    as (Hlen & _ & Hfail & _).
  split; [exact Hlen|].
  exact (Hfail 1%nat "down"%string RequestException eq_refl eq_refl).
Defined.

(** C2 as stated fails: without a token two headlines give no score at
    all. *)
Lemma scores_shorter_without_token :
  List.length (_hf_sentiment_finbert (ext := Sample.online)
                 ["up"; "down"]%string "")
  <> List.length ["up"; "down"]%string.
Proof. vm_compute. discriminate. Qed.

(** ** The news aggregator *)

Section NewsAggregator.

Context {ext : External}.

Local Open Scope string_scope.
Local Open Scope list_scope.
Local Open Scope py_scope.


(** Below the limit on entry, the loop stops at the limit. *)
Lemma cryptopanic_loop_bounded (results : list json) (cutoff maxh : Z) :
  forall titles out,
    (Z.of_nat (List.length titles) < maxh)%Z ->
    cryptopanic_loop results cutoff maxh titles = Ok out ->
    (Z.of_nat (List.length out) <= maxh)%Z.
Proof.
  induction results as [|item rest IH]; intros titles out Hlt H.
  - injection H as <-. lia.
  - cbn [cryptopanic_loop] in H.
    destruct item; cbn [get bind] in H; try discriminate.
    destruct (str_strip _) as [title|]; cbn [bind] in H; try discriminate.
    destruct (str_empty title); [now apply (IH titles)|].
    destruct (is_recent _ _) as [recent|]; cbn [bind] in H; try discriminate.
    rewrite length_app in H. cbn [List.length] in H.
    destruct (Z.leb_spec maxh (Z.of_nat (List.length titles + 1))).
    + injection H as <-. rewrite length_app. cbn [List.length]. lia.
    + apply IH in H; [exact H|].
      rewrite length_app. cbn [List.length]. lia.
Qed.

Lemma cryptopanic_bounded (api_key currency : string) (lookback maxh : Z)
  (out : list string) :
  (1 <= maxh)%Z ->
  _fetch_news_cryptopanic api_key lookback maxh currency = Ok out ->
  (Z.of_nat (List.length out) <= maxh)%Z.
Proof.
  intros Hmax H. unfold _fetch_news_cryptopanic in H.
  destruct (str_empty api_key); [injection H as <-; simpl; lia|].
  destruct (bind (http_cryptopanic api_key currency) _) as [results|];
    [|injection H as <-; simpl; lia].
  destruct (hours_before _ _) as [cutoff|]; cbn [bind] in H; [|discriminate].
  destruct (iter results) as [items|]; cbn [bind] in H; [|discriminate].
  apply (cryptopanic_loop_bounded _ _ _ [] out) in H; [exact H | simpl; lia].
Qed.

Lemma length_slice_to {A : Type} (k : Z) (l : list A) :
  (0 <= k)%Z -> (Z.of_nat (List.length (slice_to k l)) <= k)%Z.
Proof.
  intro Hk. unfold slice_to.
  destruct (Z.leb_spec 0 k); [|lia].
  rewrite length_firstn. lia.
Qed.

Lemma newsapi_request_bounded (api_key from : string) (maxh : Z) :
  (0 <= maxh)%Z ->
  (Z.of_nat (List.length (newsapi_request api_key from maxh)) <= maxh)%Z.
Proof.
  intro Hmax. unfold newsapi_request.
  destruct (http_newsapi api_key from maxh) as [data|];
    cbn [bind try_except]; [|simpl; lia].
  destruct (get_or_empty data "articles") as [articles|];
    cbn [bind try_except]; [|simpl; lia].
  destruct (iter articles) as [items|]; cbn [bind try_except]; [|simpl; lia].
  destruct (newsapi_titles items) as [titles|]; cbn [bind try_except];
    [|simpl; lia].
  now apply length_slice_to.
Qed.

(** What [_fetch_news_newsapi] returns is the outcome of one request. *)
Lemma newsapi_returns (api_key : string) (lookback maxh : Z)
  (out : list string) :
  _fetch_news_newsapi api_key lookback maxh = Ok out ->
  out = [] \/ exists from, out = newsapi_request api_key from maxh.
Proof.
  unfold _fetch_news_newsapi. intro H.
  destruct (str_empty api_key); [injection H as <-; now left|].
  destruct (hours_before _ _) as [dt|]; cbn [bind] in H; [|discriminate].
  destruct (timestamp dt) as [from_ts|]; cbn [bind] in H; [|discriminate].
  destruct (utcfromtimestamp from_ts) as [from|]; cbn [bind] in H;
    [|discriminate].
  injection H as <-. right. eauto.
Qed.

Lemma newsapi_bounded (api_key : string) (lookback maxh : Z)
  (out : list string) :
  (0 <= maxh)%Z ->
  _fetch_news_newsapi api_key lookback maxh = Ok out ->
  (Z.of_nat (List.length out) <= maxh)%Z.
Proof.
  intros Hmax H.
  destruct (newsapi_returns _ _ _ _ H) as [-> | [from ->]]; [simpl; lia|].
  now apply newsapi_request_bounded.
Qed.

Lemma newsapi_without_key (lookback maxh : Z) (api_key : string) :
  str_empty api_key = true ->
  _fetch_news_newsapi api_key lookback maxh = Ok [].
Proof. intro H. unfold _fetch_news_newsapi. now rewrite H. Qed.

(** When CryptoPanic yields nothing, or is not asked, the headlines are
    NewsAPI's. *)
Lemma news_titles_fallback (cfg_news : news_config) :
  let lookback := get_default (lookback_hours cfg_news) 6%Z in
  let maxh := get_default (max_headlines cfg_news) 12%Z in
  _fetch_news_cryptopanic (getenv "CRYPTOPANIC_API_KEY") lookback maxh "ETH"
    = Ok [] ->
  news_titles cfg_news
    = _fetch_news_newsapi (getenv "NEWSAPI_KEY") lookback maxh.
Proof.
  intros lookback maxh Hcp. unfold news_titles.
  fold lookback maxh. rewrite Hcp.
  assert (E : (if String.eqb
                    (lower (get_default (source cfg_news) "cryptopanic"))
                    "cryptopanic"
                  && negb (str_empty (getenv "CRYPTOPANIC_API_KEY"))
               then Ok [] else Ok []) = @Ok (list string) [])
    by (destruct (_ && _); reflexivity).
  rewrite E. cbn [bind is_nil andb].
  destruct (str_empty (getenv "NEWSAPI_KEY")) eqn:Hna; cbn [negb];
    [|reflexivity].
  now rewrite (newsapi_without_key _ _ _ Hna).
Qed.

Lemma news_titles_bounded (cfg_news : news_config) (titles : list string) :
  (1 <= get_default (max_headlines cfg_news) 12)%Z ->
  news_titles cfg_news = Ok titles ->
  (Z.of_nat (List.length titles)
   <= get_default (max_headlines cfg_news) 12)%Z.
Proof.
  intros Hmax H. unfold news_titles in H.
  set (maxh := get_default (max_headlines cfg_news) 12%Z) in *.
  set (lookback := get_default (lookback_hours cfg_news) 6%Z) in *.
  destruct (_ && negb (str_empty (getenv "CRYPTOPANIC_API_KEY"))).
  - destruct (_fetch_news_cryptopanic _ _ _ _) as [found|] eqn:Hcp;
      cbn [bind] in H; [|discriminate].
    destruct (is_nil found && _).
    + apply newsapi_bounded in H; [exact H | lia].
    + injection H as <-. now apply (cryptopanic_bounded _ _ _ _ _ Hmax Hcp).
  - cbn [bind is_nil andb] in H.
    destruct (negb _).
    + apply newsapi_bounded in H; [exact H | lia].
    + injection H as <-. simpl. lia.
Qed.

(** The three ways in which CryptoPanic yields no headline. *)
Lemma cryptopanic_without_key (lookback maxh : Z) (currency api_key : string) :
  str_empty api_key = true ->
  _fetch_news_cryptopanic api_key lookback maxh currency = Ok [].
Proof. intro H. unfold _fetch_news_cryptopanic. now rewrite H. Qed.

Lemma cryptopanic_unreachable (lookback maxh : Z) (currency api_key : string)
  (e : exn) :
  http_cryptopanic api_key currency = Raise e ->
  _fetch_news_cryptopanic api_key lookback maxh currency = Ok [].
Proof.
  intro H. unfold _fetch_news_cryptopanic. rewrite H.
  destruct (str_empty api_key); reflexivity.
Qed.

Lemma cryptopanic_no_results (lookback maxh : Z) (currency api_key : string)
  (d : list (string * json)) :
  http_cryptopanic api_key currency = Ok (JDict d) ->
  lookup "results" d = Some (JList []) \/ lookup "results" d = None ->
  str_empty api_key = false ->
  _fetch_news_cryptopanic api_key lookback maxh currency
    = (_ <- hours_before now_utc lookback ;; Ok []).
Proof.
  intros H Hres Hkey. unfold _fetch_news_cryptopanic. rewrite H, Hkey.
  cbn [bind get_or_empty].
  destruct Hres as [-> | ->]; cbn [sized bind iter];
    destruct (hours_before _ _); reflexivity.
Qed.

(** The cutoff, when the look-back stays in the range of [datetime]. *)
Lemma hours_before_in_range (now h : Z) :
  (datetime_min <= now - h * 3600000000 <= datetime_max)%Z ->
  hours_before now h = Ok (now - h * 3600000000)%Z.
Proof.
  intro H. unfold hours_before, hours.
  destruct (Z.leb_spec datetime_min (now - h * 3600000000)); [|lia].
  destruct (Z.leb_spec (now - h * 3600000000) datetime_max); [|lia].
  reflexivity.
Qed.

Lemma hours_before_out_of_range (now h : Z) :
  ~ (datetime_min <= now - h * 3600000000 <= datetime_max)%Z ->
  hours_before now h = Raise OverflowError.
Proof.
  intro H. unfold hours_before, hours.
  destruct (Z.leb_spec datetime_min (now - h * 3600000000));
    [|reflexivity].
  destruct (Z.leb_spec (now - h * 3600000000) datetime_max);
    [lia | reflexivity].
Qed.

(** The results the loop iterates over, when the request went through. *)
Lemma cryptopanic_after_request (api_key currency : string)
  (lookback maxh : Z) (d : list (string * json)) (results : list json) :
  str_empty api_key = false ->
  http_cryptopanic api_key currency = Ok (JDict d) ->
  lookup "results" d = Some (JList results) ->
  _fetch_news_cryptopanic api_key lookback maxh currency =
  (cutoff <- hours_before now_utc lookback ;;
   cryptopanic_loop results cutoff maxh []).
Proof.
  intros Hkey Hget Hres. unfold _fetch_news_cryptopanic.
  rewrite Hkey, Hget. cbn [bind get_or_empty]. rewrite Hres.
  reflexivity.
Qed.

(** X14: away from the boundary the limit holds and the chain of sources
    works: for [max_headlines >= 1] the aggregator returns at most
    [max_headlines] headlines; whenever CryptoPanic, the source asked first,
    yields no headline, the outcome is that of the call to NewsAPI, its
    exception included; CryptoPanic yields none without a key and on a
    failed request; and on an empty or missing result set it yields none
    when the cutoff can be computed and raises the [OverflowError] of that
    computation otherwise. *)
Theorem news_titles_bounded_with_fallback (cfg_news : news_config) :
  let lookback := get_default (lookback_hours cfg_news) 6%Z in
  let maxh := get_default (max_headlines cfg_news) 12%Z in
  (1 <= maxh)%Z ->
  (forall titles, news_titles cfg_news = Ok titles ->
                  (Z.of_nat (List.length titles) <= maxh)%Z) /\
  (_fetch_news_cryptopanic (getenv "CRYPTOPANIC_API_KEY") lookback maxh "ETH"
     = Ok [] ->
   news_titles cfg_news
     = _fetch_news_newsapi (getenv "NEWSAPI_KEY") lookback maxh) /\
  (forall api_key,
     str_empty api_key = true ->
     _fetch_news_cryptopanic api_key lookback maxh "ETH" = Ok []) /\
  (forall api_key e,
     http_cryptopanic api_key "ETH" = Raise e ->
     _fetch_news_cryptopanic api_key lookback maxh "ETH" = Ok []) /\
  (forall api_key d,
     str_empty api_key = false ->
     http_cryptopanic api_key "ETH" = Ok (JDict d) ->
     lookup "results" d = Some (JList []) \/ lookup "results" d = None ->
     _fetch_news_cryptopanic api_key lookback maxh "ETH"
       = if ((datetime_min <=? now_utc - lookback * 3600000000)
             && (now_utc - lookback * 3600000000 <=? datetime_max))%Z
         then Ok [] else Raise OverflowError).
Proof.
  intros lookback maxh Hmax.
  split; [|split; [|split; [|split]]].
  - intros titles. now apply news_titles_bounded.
  - apply news_titles_fallback.
  - apply cryptopanic_without_key.
  - apply cryptopanic_unreachable.
  - intros api_key d Hkey Hget Hres.
    rewrite (cryptopanic_no_results _ _ _ _ _ Hget Hres Hkey).
    unfold hours_before, hours.
    now destruct (_ && _).
Qed.

End NewsAggregator.

(** C6: the aggregator is to return at most [max_headlines] headlines. With
    [max_headlines = 0] and CryptoPanic answering, the loop appends the first
    headline before it compares the length with the limit, so one headline
    is returned; NewsAPI's path slices and returns none for the same
    limit. *)
Lemma one_headline_for_limit_zero :
  news_titles (ext := Sample.online) (Sample.headlines 0)
    = Ok ["ETH breaks out (old)"%string] /\
  ~ (Z.of_nat (List.length ["ETH breaks out (old)"%string]) <= 0)%Z /\
  _fetch_news_newsapi (ext := Sample.online) "na-key" 6 0 = Ok [].
Proof.
  split; [vm_compute; reflexivity|].
  split; [simpl; lia | vm_compute; reflexivity].
Qed.

Section StaleHeadlines.

Context {ext : External}.

Local Open Scope string_scope.
Local Open Scope list_scope.
Local Open Scope py_scope.




(** C10: when [HUGGINGFACE_API_TOKEN] is empty or unset, the scorer returns
    the empty list for every input, and [news_sentiment] returns exactly 0.0
    whatever headlines were fetched. *)
Theorem no_token_no_sentiment (cfg_news : news_config) :
  getenv "HUGGINGFACE_API_TOKEN" = "" ->
  (forall texts,
     _hf_sentiment_finbert texts (getenv "HUGGINGFACE_API_TOKEN") = []) /\
  (forall titles,
     news_titles cfg_news = Ok titles ->
     news_sentiment cfg_news = Ok 0.0%float).
Proof.
  intro Htok. split.
  - intro texts. rewrite Htok. apply scorer_without_token.
  - intros titles Htitles.
    unfold news_sentiment. rewrite Htitles, Htok. cbn [bind].
    rewrite scorer_without_token.
    destruct (is_nil titles); reflexivity.
Qed.

End StaleHeadlines.



Lemma no_token_no_sentiment_witness :
  @getenv Sample.untokened "HUGGINGFACE_API_TOKEN" = ""%string /\
  news_titles (ext := Sample.untokened) empty_news_config
    = Ok ["ETH breaks out (old)"; "Gas fees fall"]%string /\
  news_sentiment (ext := Sample.untokened) empty_news_config = Ok 0.0%float.
Proof.
  assert (Htitles : news_titles (ext := Sample.untokened) empty_news_config
                    = Ok ["ETH breaks out (old)"; "Gas fees fall"]%string)
    by (vm_compute; reflexivity).
  split; [reflexivity|]. split; [exact Htitles|].
  exact (proj2 (no_token_no_sentiment (ext := Sample.untokened)
                  empty_news_config eq_refl) _ Htitles).
Defined.

(** ** The decision blender *)

(** C4, as the code computes it: whenever the price model returns
    [proba_up] and the news path returns [sentiment], [decide_direction]
    returns the side together with the three values rounded to three
    places, where [blended = w_price * ((proba_up - 0.5) * 2) + w_news *
    sentiment] in binary64, and the side is "long" exactly when
    [blended >= 0.1], [proba_up >= min_price_model_proba] and
    [sentiment >= min_news_sentiment]. For [proba_up = 0.70],
    [sentiment = 0.50] and the default configuration the blended value is
    0.43999999999999995, at least 0.1, the diagnostics report it as 0.44
    and the decision is "long". *)
Theorem blend_rule_and_scenario (ext : External) (df : list candle)
  (cfg : config) (proba_up s_news : float) (flag : Z) :
  let w_p := get_default (blend_weight_price cfg) 0.6%float in
  let w_n := get_default (blend_weight_news cfg) 0.4%float in
  let min_proba := get_default (min_price_model_proba cfg) 0.55%float in
  let min_news := get_default (min_news_sentiment cfg) 0.10%float in
  let b := (w_p * ((proba_up - 0.5) * 2.0) + w_n * s_news)%float in
  price_model_signal df (get_default (pred_horizon_bars cfg) 3%Z) min_proba
    = Ok (proba_up, flag) ->
  news_sentiment (get_default (news cfg) empty_news_config) = Ok s_news ->
  (exists side,
     decide_direction df cfg =
     Ok (side, {| diag_proba_up := round3 proba_up;
                  diag_news_sent := round3 s_news;
                  diag_blended := round3 b |}) /\
     (side = "long"%string <->
      (0.1 <=? b)%float = true /\
      (min_proba <=? proba_up)%float = true /\
      (min_news <=? s_news)%float = true)) /\
  (cfg = Sample.default_config ->
   proba_up = 0.70%float ->
   s_news = 0.50%float ->
   b = 0.43999999999999995%float /\
   (0.1 <=? b)%float = true /\
   decide_direction df cfg =
   Ok ("long"%string,
       {| diag_proba_up := 0.7%float; diag_news_sent := 0.5%float;
          diag_blended := 0.44%float |})).
Proof.
  intros w_p w_n min_proba min_news b Hsig Hnews.
  assert (Hdec : decide_direction df cfg =
                 Ok (side_of cfg proba_up s_news,
                     {| diag_proba_up := round3 proba_up;
                        diag_news_sent := round3 s_news;
                        diag_blended := round3 b |})).
  { unfold decide_direction. fold min_proba. rewrite Hsig. cbn [bind].
    unfold decide_from_signal. rewrite Hnews. reflexivity. }
  split.
  - exists (side_of cfg proba_up s_news). split; [exact Hdec|].
    unfold side_of, geb, blended, price_comp.
    fold w_p w_n min_proba min_news. fold b.
    destruct (0.1 <=? b)%float; destruct (min_proba <=? proba_up)%float;
      destruct (min_news <=? s_news)%float; cbn [andb];
      split;
      try (intros (? & ? & ?); discriminate);
      try (intro H; destruct (_ && _ && _); discriminate);
      intros _; auto.
  - intros Hcfg Hp Hs. rewrite Hdec. subst b w_p w_n. subst cfg proba_up s_news.
    split; [vm_compute; reflexivity|].
    split; vm_compute; reflexivity.
Qed.

Lemma blend_rule_and_scenario_witness :
  price_model_signal (ext := Cases.bullish) (Sample.candles 60) 3 0.55
    = Ok (0.70%float, 1%Z) /\
  news_sentiment (ext := Cases.bullish) empty_news_config = Ok 0.50%float /\
  decide_direction (ext := Cases.bullish) (Sample.candles 60)
    Sample.default_config =
  Ok ("long"%string,
      {| diag_proba_up := 0.7%float; diag_news_sent := 0.5%float;
         diag_blended := 0.44%float |}).
Proof.
  assert (Hsig : price_model_signal (ext := Cases.bullish)
                   (Sample.candles 60) 3 0.55 = Ok (0.70%float, 1%Z))
    by (vm_compute; reflexivity).
  assert (Hnews : news_sentiment (ext := Cases.bullish) empty_news_config
                  = Ok 0.50%float) by (vm_compute; reflexivity).
  split; [exact Hsig|]. split; [exact Hnews|].
  exact (proj2 (proj2 (proj2 (blend_rule_and_scenario Cases.bullish
                                (Sample.candles 60) Sample.default_config
                                0.70%float 0.50%float 1 Hsig Hnews)
                         eq_refl eq_refl eq_refl))).
Defined.

(** The blended score of the scenario is not the decimal 0.44: in binary64
    [(0.7 - 0.5) * 2] is 0.3999999999999999 and the weighted sum is the
    float below 0.44. *)
Lemma blended_scenario_below_0_44 :
  blended Sample.default_config 0.70%float 0.50%float <> 0.44%float /\
  blended Sample.default_config 0.70%float 0.50%float
    = 0.43999999999999995%float /\
  price_comp 0.70%float = 0.3999999999999999%float.
Proof.
  split; [|split; vm_compute; reflexivity].
  intro H.
  apply (f_equal (fun x => PrimFloat.eqb x 0.44%float)) in H.
  vm_compute in H. discriminate.
Qed.

(** C5: for every [proba_up] (in [0, 1] or not) and every configuration
    whose [min_news_sentiment] is 0.10 and [max_news_sentiment_for_short] is
    -0.10, an aggregate sentiment of exactly 0.0 makes the decision
    "skip". *)
Theorem zero_sentiment_skips (ext : External) (cfg : config)
  (proba_up : float) (flag : Z) :
  get_default (min_news_sentiment cfg) 0.10%float = 0.10%float ->
  get_default (max_news_sentiment_for_short cfg) (-0.10)%float
    = (-0.10)%float ->
  side_of cfg proba_up 0.0%float = "skip"%string /\
  (news_sentiment (get_default (news cfg) empty_news_config) = Ok 0.0%float ->
   exists d, decide_from_signal (proba_up, flag) cfg = Ok ("skip"%string, d)).
Proof.
  intros Hmin Hmax.
  assert (Hside : side_of cfg proba_up 0.0%float = "skip"%string).
  { unfold side_of. rewrite Hmin, Hmax.
    change (geb 0.0%float 0.10%float) with false.
    change (0.0 <=? -0.10)%float with false.
    now rewrite !andb_false_r. }
  split; [exact Hside|].
  intro Hnews. unfold decide_from_signal.
  rewrite Hnews. cbn [bind]. rewrite Hside. eauto.
Qed.

Lemma zero_sentiment_skips_witness :
  get_default (min_news_sentiment Sample.default_config) 0.10%float
    = 0.10%float /\
  get_default (max_news_sentiment_for_short Sample.default_config)
    (-0.10)%float = (-0.10)%float /\
  side_of Sample.default_config 0.9%float 0.0%float = "skip"%string.
Proof.
  split; [reflexivity|]. split; [reflexivity|].
  exact (proj1 (zero_sentiment_skips Sample.offline Sample.default_config
                  0.9%float 1%Z eq_refl eq_refl)).
Defined.

(** * Further properties of [signals.py] *)

(** ** Floats *)

Lemma Prim2SF_infinity : Prim2SF infinity = S754_infinity false.
Proof. reflexivity. Qed.

Lemma SFcompare_refl_finite (s : bool) (m : positive) (e : Z) :
  SFcompare (S754_finite s m e) (S754_finite s m e) = Some Eq.
Proof.
  simpl. rewrite Z.compare_refl, Pos.compare_cont_refl.
  destruct s; reflexivity.
Qed.

(** A float is finite exactly when its decoding is a zero or a finite
    number. *)
Lemma is_finite_spec (x : float) :
  is_finite x =
  match Prim2SF x with
  | S754_zero _ | S754_finite _ _ _ => true
  | _ => false
  end.
Proof.
  unfold is_finite, is_nan, is_infinity.
  rewrite !eqb_spec, abs_spec, Prim2SF_infinity.
  unfold SFeqb.
  destruct (Prim2SF x) as [s|s| |s m e].
  - reflexivity.
  - destruct s; reflexivity.
  - reflexivity.
  - rewrite SFcompare_refl_finite. reflexivity.
Qed.

Lemma is_nan_spec (x : float) :
  is_nan x = match Prim2SF x with S754_nan => true | _ => false end.
Proof.
  unfold is_nan. rewrite eqb_spec. unfold SFeqb.
  destruct (Prim2SF x) as [s|s| |s m e].
  - reflexivity.
  - destruct s; reflexivity.
  - reflexivity.
  - now rewrite SFcompare_refl_finite.
Qed.

Lemma is_zero_spec (x : float) :
  (x =? 0)%float =
  match Prim2SF x with S754_zero _ => true | _ => false end.
Proof.
  rewrite eqb_spec. change (Prim2SF 0) with (S754_zero false).
  unfold SFeqb.
  destruct (Prim2SF x) as [s|s| |s m e]; try reflexivity; destruct s;
    reflexivity.
Qed.

(** A quotient by zero is never finite. *)
Lemma finite_quotient_nonzero (x c : float) :
  is_finite (x / c)%float = true -> (c =? 0)%float = false.
Proof.
  rewrite is_finite_spec, is_zero_spec, div_spec.
  unfold SF64div, SFdiv.
  destruct (Prim2SF c) as [s|s| |s m e]; try reflexivity.
  destruct (Prim2SF x); discriminate.
Qed.

(** A quotient by NaN, less one, is not finite. *)
Lemma change_from_nan (x : float) :
  is_finite (x / nan - 1)%float = false.
Proof.
  rewrite is_finite_spec, sub_spec, div_spec.
  change (Prim2SF nan) with S754_nan.
  unfold SF64div, SFdiv.
  destruct (Prim2SF x); reflexivity.
Qed.

(** ** The feature builder *)

Lemma subseq_filter {A : Type} (P : A -> bool) (l : list A) :
  subseq (filter P l) l.
Proof.
  induction l as [|x l IH]; simpl; [constructor|].
  destruct (P x); now constructor.
Qed.

Lemma subseq_map {A B : Type} (f : A -> B) (l1 l2 : list A) :
  subseq l1 l2 -> subseq (map f l1) (map f l2).
Proof. induction 1; simpl; now constructor. Qed.

Lemma subseq_length {A : Type} (l1 l2 : list A) :
  subseq l1 l2 -> (List.length l1 <= List.length l2)%nat.
Proof. induction 1; simpl; lia. Qed.

Lemma map_snd_combine {A B : Type} (l1 : list A) (l2 : list B) :
  List.length l1 = List.length l2 -> map snd (combine l1 l2) = l2.
Proof.
  revert l2. induction l1 as [|a l1 IH]; intros [|b l2] H; simpl in *;
    try reflexivity; try discriminate.
  f_equal. apply IH. lia.
Qed.

Lemma filter_none {A : Type} (P : A -> bool) (l : list A) :
  (forall x, In x l -> P x = false) -> filter P l = [].
Proof.
  induction l as [|x l IH]; intro H; simpl; [reflexivity|].
  rewrite (H x (or_introl eq_refl)). apply IH.
  intros y Hy. apply H. now right.
Qed.

Lemma skipn_combine {A B : Type} (n : nat) (l1 : list A) (l2 : list B) :
  skipn n (combine l1 l2) = combine (skipn n l1) (skipn n l2).
Proof.
  revert l1 l2. induction n as [|n IH]; intros [|a l1] [|b l2]; simpl;
    try reflexivity.
  - now destruct (skipn n l1).
  - apply IH.
Qed.

Lemma firstn_seq_min (k start len : nat) :
  firstn k (seq start len) = seq start (Nat.min k len).
Proof.
  revert start len. induction k as [|k IH]; intros start [|len]; simpl;
    try reflexivity.
  now rewrite IH.
Qed.

Lemma forallb_false {A : Type} (P : A -> bool) (l : list A) (x : A) :
  In x l -> P x = false -> forallb P l = false.
Proof.
  intros Hin Hx. destruct (forallb P l) eqn:E; [|reflexivity].
  rewrite forallb_forall in E. rewrite (E x Hin) in Hx. discriminate.
Qed.

Lemma candle_of_feature_row (c : candle) (i : nat)
  (ret1 ret3 ret6 rsi ema20 ema50 macd macd_sig bb_low bb_high atr
     : list float) :
  candle_of (feature_row c i ret1 ret3 ret6 rsi ema20 ema50 macd macd_sig
               bb_low bb_high atr) = c.
Proof. destruct c. reflexivity. Qed.

(** Before position [periods] a percentage change is not finite. *)
Lemma pct_change_warmup (periods : Z) (col : list float) (i : nat) :
  (Z.of_nat i < periods)%Z ->
  is_finite (nth i (pct_change periods col) nan) = false.
Proof.
  intro Hi.
  destruct (nth_error (pct_change periods col) i) as [v|] eqn:Hv.
  - rewrite (nth_error_nth _ _ _ Hv).
    unfold pct_change in Hv. rewrite nth_error_zip_with in Hv.
    destruct (nth_error col i) as [x|]; [|discriminate].
    unfold shift in Hv. rewrite nth_error_map, nth_error_seq in Hv.
    destruct (i <? List.length col)%nat; [|discriminate].
    simpl in Hv.
    destruct (Z.leb_spec 0 (Z.of_nat i - periods)); [lia|].
    simpl in Hv. injection Hv as <-. apply change_from_nan.
  - apply nth_error_None in Hv. now rewrite nth_overflow.
Qed.

Section FeatureBuilder.

Context {ext : External}.

Local Open Scope py_scope.

(** What [build_features] returns when no indicator raises. *)
Lemma build_features_rows (df : list candle) (rows : list frow) :
  build_features df = Ok rows ->
  exists rsi ema20 ema50 macd macd_sig bb_low bb_high atr,
    rows =
    filter all_finite
      (map (fun ic : nat * candle =>
              feature_row (snd ic) (fst ic)
                (pct_change 1 (map c_close df))
                (pct_change 3 (map c_close df))
                (pct_change 6 (map c_close df))
                rsi ema20 ema50 macd macd_sig bb_low bb_high atr)
           (combine (seq 0 (List.length df)) df)).
Proof.
  unfold build_features. intro H.
  destruct (ta_rsi _ _) as [rsi|]; cbn [bind] in H; [|discriminate].
  destruct (ta_ema _ 20) as [ema20|]; cbn [bind] in H; [|discriminate].
  destruct (ta_ema _ 50) as [ema50|]; cbn [bind] in H; [|discriminate].
  destruct (ta_macd _) as [[macd macd_sig]|]; cbn [bind] in H; [|discriminate].
  destruct (ta_bollinger _) as [[bb_low bb_high]|]; cbn [bind] in H;
    [|discriminate].
  destruct (ta_atr _ _ _) as [atr|]; cbn [bind] in H; [|discriminate].
  injection H as <-.
  now exists rsi, ema20, ema50, macd, macd_sig, bb_low, bb_high, atr.
Qed.

(** Without the first six candles the feature frame is the same. *)
Lemma build_features_skips_warmup (df : list candle) (rows : list frow) :
  build_features df = Ok rows ->
  exists f : nat * candle -> frow,
    (forall i c, candle_of (f (i, c)) = c) /\
    rows = filter all_finite
             (map f (skipn 6 (combine (seq 0 (List.length df)) df))).
Proof.
  intro H.
  destruct (build_features_rows _ _ H)
    as (rsi & ema20 & ema50 & macd & macd_sig & bb_low & bb_high & atr & ->).
  set (f := fun ic : nat * candle => feature_row (snd ic) (fst ic) _ _ _ _ _ _ _ _ _ _ _).
  set (L := combine (seq 0 (List.length df)) df).
  exists f. split.
  { intros i c. subst f. cbn [fst snd]. apply candle_of_feature_row. }
  rewrite <- (firstn_skipn 6 L) at 1.
  rewrite map_app, filter_app.
  replace (filter all_finite (map f (firstn 6 L))) with (@nil frow);
    [reflexivity|].
  symmetry. apply filter_none. intros r Hr.
  apply in_map_iff in Hr. destruct Hr as ([i c] & <- & Hic).
  subst L. rewrite combine_firstn in Hic.
  apply in_combine_l in Hic. rewrite firstn_seq_min in Hic.
  apply in_seq in Hic.
  apply (forallb_false _ _ (f_ret6 (f (i, c)))).
  - unfold frow_values. simpl. tauto.
  - subst f. cbn [f_ret6 feature_row fst snd].
    apply pct_change_warmup. lia.
Qed.

(** So at most [len(df) - 6] feature rows are left. *)
Lemma build_features_after_warmup (df : list candle) (rows : list frow) :
  build_features df = Ok rows ->
  (List.length rows <= List.length df - 6)%nat.
Proof.
  intro H. destruct (build_features_skips_warmup _ _ H) as (f & _ & ->).
  etransitivity; [apply filter_length_le|].
  rewrite length_map, length_skipn, length_combine, length_seq. lia.
Qed.

End FeatureBuilder.

Section FeatureBuilderProperties.

Context {ext : External}.

(** X1: when no indicator raises, the feature frame is the candle frame
    with rows left out and thirteen columns added: every returned row is
    finite in all its values, and the rows' candle columns are candles of
    the input, in the input's order; so there are never more feature rows
    than candles. *)
Theorem build_features_selects_finite_rows (df : list candle)
  (rows : list frow) :
  build_features df = Ok rows ->
  Forall (fun r => all_finite r = true) rows /\
  subseq (map candle_of rows) df /\
  (List.length rows <= List.length df)%nat.
Proof.
  intro H.
  destruct (build_features_rows _ _ H)
    as (rsi & ema20 & ema50 & macd & macd_sig & bb_low & bb_high & atr & ->).
  set (f := fun ic : nat * candle => feature_row (snd ic) (fst ic) _ _ _ _ _ _ _ _ _ _ _).
  set (L := combine (seq 0 (List.length df)) df).
  assert (Hall : map candle_of (map f L) = df).
  { rewrite map_map. transitivity (map snd L).
    - apply map_ext. intros [i c]. subst f. cbn [fst snd].
      apply candle_of_feature_row.
    - apply map_snd_combine, length_seq. }
  assert (Hsub : subseq (map candle_of (filter all_finite (map f L))) df).
  { pose proof (subseq_map candle_of _ _
                  (subseq_filter all_finite (map f L))) as Hs.
    now rewrite Hall in Hs. }
  split; [|split].
  - apply Forall_forall. intros r Hr. now apply filter_In in Hr.
  - exact Hsub.
  - apply subseq_length in Hsub. now rewrite length_map in Hsub.
Qed.

(** X2: the six-bar return is undefined on the first six candles, so none
    of them yields a feature row: the frame has at most [len(df) - 6] rows
    and each row's candle is one of [df.iloc[6:]]. *)
Theorem build_features_drops_first_six (df : list candle)
  (rows : list frow) :
  build_features df = Ok rows ->
  (List.length rows <= List.length df - 6)%nat /\
  (forall r, In r rows -> In (candle_of r) (skipn 6 df)).
Proof.
  intro H. split; [now apply build_features_after_warmup|].
  destruct (build_features_skips_warmup _ _ H) as (f & Hf & ->).
  intros r Hr. apply filter_In in Hr. destruct Hr as [Hr _].
  apply in_map_iff in Hr. destruct Hr as ([i c] & <- & Hic).
  rewrite Hf. rewrite skipn_combine in Hic.
  now apply in_combine_r in Hic.
Qed.

(** X3: every feature row has a finite, non-zero close and a Bollinger
    band of non-zero width: a row whose [ema_spread] or [price_bb_pos]
    divides by zero is dropped. The forward return of [make_label]
    therefore never divides by zero. *)
Theorem feature_rows_divide_safely (df : list candle) (rows : list frow)
  (r : frow) :
  build_features df = Ok rows ->
  In r rows ->
  is_finite (f_close r) = true /\
  (f_close r =? 0)%float = false /\
  (f_bb_high r - f_bb_low r =? 0)%float = false.
Proof.
  intros H Hr.
  destruct (build_features_rows _ _ H)
    as (rsi & ema20 & ema50 & macd & macd_sig & bb_low & bb_high & atr & ->).
  apply filter_In in Hr. destruct Hr as [Hr Hfin].
  apply in_map_iff in Hr. destruct Hr as ([i c] & <- & _).
  cbn [fst snd] in *.
  unfold all_finite in Hfin. rewrite forallb_forall in Hfin.
  set (r := feature_row c i _ _ _ _ _ _ _ _ _ _ _) in *.
  assert (Hspread : is_finite (f_ema_spread r) = true)
    by (apply Hfin; unfold frow_values; simpl; tauto).
  assert (Hpos : is_finite (f_price_bb_pos r) = true)
    by (apply Hfin; unfold frow_values; simpl; tauto).
  split; [|split].
  - apply Hfin. unfold frow_values. simpl. tauto.
  - exact (finite_quotient_nonzero _ _ Hspread).
  - exact (finite_quotient_nonzero _ _ Hpos).
Qed.

(** Fewer than fifty feature rows end in the neutral default. *)
Lemma price_model_signal_few_rows (df : list candle) (horizon : Z)
  (min_proba : float) (rows : list frow) :
  build_features df = Ok rows ->
  (List.length rows < 50)%nat ->
  price_model_signal df horizon min_proba = Ok (0.5%float, 0%Z).
Proof.
  intros H Hlen.
  unfold price_model_signal. rewrite H. cbn [bind].
  rewrite aligned_Xy_eq, length_map.
  destruct (Nat.ltb_spec (List.length rows) 50); [reflexivity | lia].
Qed.

(** X4: with fewer than 56 candles the classifier is never fitted: if the
    feature builder returns at all, at most [len(df) - 6 < 50] rows are
    left and [price_model_signal] returns the neutral [(0.5, 0)]. *)
Theorem price_model_signal_needs_56_candles (df : list candle)
  (horizon : Z) (min_proba : float) (rows : list frow) :
  build_features df = Ok rows ->
  (List.length df < 56)%nat ->
  price_model_signal df horizon min_proba = Ok (0.5%float, 0%Z).
Proof.
  intros H Hlen.
  pose proof (build_features_after_warmup _ _ H) as Hrows.
  apply (price_model_signal_few_rows _ _ _ _ H). lia.
Qed.

End FeatureBuilderProperties.

Lemma build_features_selects_finite_rows_witness :
  build_features (ext := Sample.offline) (Sample.candles 60)
    = Ok Sample.features /\
  (List.length Sample.features <= List.length (Sample.candles 60))%nat.
Proof.
  assert (H : build_features (ext := Sample.offline) (Sample.candles 60)
              = Ok Sample.features) by (vm_compute; reflexivity).
  split; [exact H|].
  exact (proj2 (proj2 (build_features_selects_finite_rows
                         (ext := Sample.offline) _ _ H))).
Defined.

Lemma build_features_drops_first_six_witness :
  build_features (ext := Sample.offline) (Sample.candles 60)
    = Ok Sample.features /\
  (List.length Sample.features <= List.length (Sample.candles 60) - 6)%nat.
Proof.
  assert (H : build_features (ext := Sample.offline) (Sample.candles 60)
              = Ok Sample.features) by (vm_compute; reflexivity).
  split; [exact H|].
  exact (proj1 (build_features_drops_first_six
                  (ext := Sample.offline) _ _ H)).
Defined.

Lemma feature_rows_divide_safely_witness :
  build_features (ext := Sample.offline) (Sample.candles 8)
    = Ok Scenario.short_features /\
  In Scenario.first_short_feature Scenario.short_features /\
  (f_close Scenario.first_short_feature =? 0)%float = false.
Proof.
  assert (H : build_features (ext := Sample.offline) (Sample.candles 8)
              = Ok Scenario.short_features) by (vm_compute; reflexivity).
  assert (Hin : In Scenario.first_short_feature Scenario.short_features)
    by (vm_compute; left; reflexivity).
  split; [exact H|]. split; [exact Hin|].
  exact (proj1 (proj2 (feature_rows_divide_safely
                         (ext := Sample.offline) _ _ _ H Hin))).
Defined.

Lemma price_model_signal_needs_56_candles_witness :
  build_features (ext := Sample.offline) (Sample.candles 55)
    = Ok (firstn 49 Sample.features) /\
  (List.length (Sample.candles 55) < 56)%nat /\
  price_model_signal (ext := Sample.offline) (Sample.candles 55) 3 0.55
    = Ok (0.5%float, 0%Z).
Proof.
  assert (H : build_features (ext := Sample.offline) (Sample.candles 55)
              = Ok (firstn 49 Sample.features)) by (vm_compute; reflexivity).
  assert (Hlen : (List.length (Sample.candles 55) < 56)%nat)
    by (vm_compute; lia).
  split; [exact H|]. split; [exact Hlen|].
  exact (price_model_signal_needs_56_candles
           (ext := Sample.offline) _ 3 0.55%float _ H Hlen).
Defined.

(** ** The direction classifier, further *)

Lemma map_fst_slice_to {A B : Type} (k : Z) (l : list (A * B)) :
  map fst (slice_to k l) = slice_to k (map fst l).
Proof.
  unfold slice_to. rewrite length_map.
  destruct (0 <=? k)%Z; symmetry; apply firstn_map.
Qed.

(** X5: the two frames handed to [fit] are row-aligned for every feature
    frame and every horizon: the label frame carries exactly the index
    labels of the feature frame, in the same order, and both hold all rows
    but the last one. *)
Theorem training_rows_aligned (df_feat : list frow) (horizon : Z) :
  let X_train := fst (training_rows df_feat horizon) in
  let y_train := snd (training_rows df_feat horizon) in
  map fst X_train = map fst y_train /\
  map fst X_train = firstn (List.length df_feat - 1) (map f_idx df_feat) /\
  List.length X_train = (List.length df_feat - 1)%nat /\
  List.length y_train = (List.length df_feat - 1)%nat.
Proof.
  unfold training_rows. rewrite aligned_Xy_eq. cbn [fst snd].
  rewrite !map_fst_slice_to, index_X_rows, index_make_label.
  rewrite !slice_to_minus_one, !length_firstn, !length_map, length_make_label.
  repeat split; lia.
Qed.

Section ClassifierOutcomes.

Context {ext : External}.

Local Open Scope py_scope.

(** X6: whatever [price_model_signal] returns, the flag is 1, 0 or -1; flag
    1 comes only with [proba_up >= min_proba], and flag -1 only when
    neither [proba_up] nor [1 - proba_up] reaches [min_proba]. *)
Theorem price_model_signal_flag_sound (df : list candle) (horizon : Z)
  (min_proba proba_up : float) (flag : Z) :
  price_model_signal df horizon min_proba = Ok (proba_up, flag) ->
  (flag = 1 \/ flag = 0 \/ flag = -1)%Z /\
  (flag = 1%Z -> geb proba_up min_proba = true) /\
  (flag = (-1)%Z ->
   geb proba_up min_proba = false /\
   geb (1 - proba_up)%float min_proba = false).
Proof.
  unfold price_model_signal. intro H.
  destruct (build_features df) as [df_feat|]; cbn [bind] in H; [|discriminate].
  destruct (aligned_Xy df_feat horizon) as [X y].
  destruct (List.length X <? 50)%nat.
  { injection H as <- <-. repeat split; try discriminate. auto. }
  destruct (training_rows df_feat horizon) as [X_train y_train].
  destruct (sk_fit _ _) as [clf|]; cbn [bind] in H; [|discriminate].
  destruct (scored_row df_feat horizon) as [x|]; [|discriminate].
  destruct (clf (snd x)) as [p|]; cbn [bind] in H; [|discriminate].
  destruct (geb p min_proba) eqn:Hup.
  { injection H as <- <-. repeat split; try discriminate; auto. }
  destruct (geb (1 - p)%float min_proba) eqn:Hdown;
    injection H as <- <-; repeat split; try discriminate; auto.
Qed.

(** X7: a classifier that cannot be fitted is not turned into the neutral
    default: with fifty feature rows or more, an exception of [fit] leaves
    [price_model_signal] and [decide_direction] with that exception. *)
Theorem fit_failure_escapes (df : list candle) (cfg : config)
  (df_feat : list frow) (e : exn) :
  build_features df = Ok df_feat ->
  (50 <= List.length df_feat)%nat ->
  let horizon := get_default (pred_horizon_bars cfg) 3%Z in
  sk_fit (map snd (fst (training_rows df_feat horizon)))
         (map snd (snd (training_rows df_feat horizon))) = Raise e ->
  price_model_signal df horizon
    (get_default (min_price_model_proba cfg) 0.55%float) = Raise e /\
  decide_direction df cfg = Raise e.
Proof.
  intros Hfeat Hlen horizon Hfit.
  assert (Hsig : price_model_signal df horizon
                   (get_default (min_price_model_proba cfg) 0.55%float)
                 = Raise e).
  { rewrite (price_model_signal_fitted _ _ _ _ Hfeat).
    - now rewrite Hfit.
    - rewrite aligned_Xy_eq. cbn [fst]. now rewrite length_map. }
  split; [exact Hsig|].
  unfold decide_direction. fold horizon. now rewrite Hsig.
Qed.

End ClassifierOutcomes.

Lemma price_model_signal_flag_sound_witness :
  price_model_signal (ext := Sample.offline) (Sample.candles 60) 3 0.55
    = Ok (0.7%float, 1%Z) /\
  geb 0.7 0.55 = true.
Proof.
  assert (H : price_model_signal (ext := Sample.offline) (Sample.candles 60)
                3 0.55 = Ok (0.7%float, 1%Z)) by (vm_compute; reflexivity).
  split; [exact H|].
  exact (proj1 (proj2 (price_model_signal_flag_sound
                         (ext := Sample.offline) _ _ _ _ _ H)) eq_refl).
Defined.

Lemma fit_failure_escapes_witness :
  build_features (ext := Broken.no_fit) (Sample.candles 60)
    = Ok Sample.features /\
  (50 <= List.length Sample.features)%nat /\
  decide_direction (ext := Broken.no_fit) (Sample.candles 60)
    Sample.default_config = Raise ValueError.
Proof.
  assert (H : build_features (ext := Broken.no_fit) (Sample.candles 60)
              = Ok Sample.features) by (vm_compute; reflexivity).
  assert (Hlen : (50 <= List.length Sample.features)%nat)
    by (vm_compute; lia).
  split; [exact H|]. split; [exact Hlen|].
  exact (proj2 (fit_failure_escapes (ext := Broken.no_fit)
                  (Sample.candles 60) Sample.default_config
                  Sample.features ValueError H Hlen eq_refl)).
Defined.

(** ** The sentiment scorer, further *)

Section ScorerShapes.

Context {ext : External}.

Local Open Scope string_scope.
Local Open Scope list_scope.
Local Open Scope py_scope.

Lemma non_object_scores_zero (out : json) :
  is_object out = false -> headline_score (Ok out) = 0.0%float.
Proof.
  intro Hobj. unfold headline_score. cbn [bind].
  destruct out as [| | | | |l|d]; try reflexivity; [|discriminate].
  destruct l as [|first l]; [reflexivity|].
  destruct first as [| | | | | |probs]; try reflexivity.
  destruct probs; reflexivity.
Qed.

(** X8: only a response that is a single JSON object can give a non-zero
    score. Every other response scores exactly 0.0, a list of label objects
    included: the generator over the first element of such a list visits
    the keys of that dict and calls [get] on a string, and the [except]
    branch appends 0.0. In a batch, the score at the position of such a
    response is 0.0. *)
Theorem non_object_response_scores_zero (out : json) :
  is_object out = false ->
  headline_score (Ok out) = 0.0%float /\
  (forall texts hf_token k t,
     str_empty hf_token = false ->
     nth_error texts k = Some t ->
     http_finbert k hf_token t = Ok out ->
     nth_error (_hf_sentiment_finbert texts hf_token) k = Some 0.0%float).
Proof.
  intro Hobj. split; [now apply non_object_scores_zero|].
  intros texts hf_token k t Htok Hk Hout.
  rewrite (nth_error_scorer _ _ _ Htok), Hk. cbn [option_map].
  rewrite Hout. f_equal. now apply non_object_scores_zero.
Qed.

(** X9: with a token set, if every request of a batch raises, the score
    list is one 0.0 per headline, and [news_sentiment] is the mean of that
    list of zeros rather than an error. *)
Theorem all_requests_failing_score_zero (texts : list string)
  (hf_token : string) :
  str_empty hf_token = false ->
  (forall i t, exists e, http_finbert i hf_token t = Raise e) ->
  _hf_sentiment_finbert texts hf_token
    = repeat 0.0%float (List.length texts) /\
  (forall cfg_news t0 titles,
     hf_token = getenv "HUGGINGFACE_API_TOKEN" ->
     texts = t0 :: titles ->
     news_titles cfg_news = Ok texts ->
     news_sentiment cfg_news
       = Ok (np_mean (repeat 0.0%float (List.length texts)))).
Proof.
  intros Htok Hfail.
  assert (Hloop : forall l i,
            finbert_loop i l hf_token = repeat 0.0%float (List.length l)).
  { induction l as [|t l IH]; intro i; simpl; [reflexivity|].
    destruct (Hfail i t) as [e ->]. now rewrite IH. }
  assert (Hscores : _hf_sentiment_finbert texts hf_token
                    = repeat 0.0%float (List.length texts)).
  { rewrite (scorer_is_loop _ _ Htok). apply Hloop. }
  split; [exact Hscores|].
  intros cfg_news t0 titles -> Htexts Htitles.
  unfold news_sentiment. rewrite Htitles. cbn [bind].
  rewrite Hscores. subst texts. reflexivity.
Qed.

End ScorerShapes.

Lemma non_object_response_scores_zero_witness :
  let out := JList [JDict [("label", JStr "positive"); ("score", JFloat 0.54)];
                    JDict [("label", JStr "negative"); ("score", JFloat 0.4)]
                   ]%string in
  is_object out = false /\
  headline_score (ext := Sample.offline) (Ok out) = 0.0%float.
Proof.
  intro out. split; [reflexivity|].
  exact (proj1 (non_object_response_scores_zero (ext := Sample.offline)
                  out eq_refl)).
Defined.

Lemma all_requests_failing_score_zero_witness :
  str_empty "hf-token" = false /\
  _hf_sentiment_finbert (ext := Malformed.finbert_down)
    ["up"; "down"; "flat"]%string "hf-token"
  = [0.0; 0.0; 0.0]%float.
Proof.
  split; [reflexivity|].
  exact (proj1 (all_requests_failing_score_zero
                  (ext := Malformed.finbert_down)
                  ["up"; "down"; "flat"]%string "hf-token" eq_refl
                  (fun _ _ => ex_intro _ RequestException eq_refl))).
Defined.

(** ** The news aggregator, further *)

Section Aggregator.

Context {ext : External}.

Local Open Scope string_scope.
Local Open Scope list_scope.
Local Open Scope py_scope.

(** One turn of the loop, in terms of [headline_of]. *)
Lemma cryptopanic_loop_turn (item : json) (rest : list json)
  (cutoff maxh : Z) (titles : list string) :
  cryptopanic_loop (item :: rest) cutoff maxh titles =
  (h <- headline_of item cutoff ;;
   match h with
   | None => cryptopanic_loop rest cutoff maxh titles
   | Some t =>
       if (maxh <=? Z.of_nat (List.length (titles ++ [t])))%Z
       then Ok (titles ++ [t])
       else cryptopanic_loop rest cutoff maxh (titles ++ [t])
   end).
Proof.
  cbn [cryptopanic_loop]. unfold headline_of.
  destruct (get item "title") as [t|]; cbn [bind]; [|reflexivity].
  destruct (get item "slug") as [s|]; cbn [bind]; [|reflexivity].
  destruct (str_strip _) as [title|]; cbn [bind]; [|reflexivity].
  destruct (str_empty title); [reflexivity|].
  destruct (get item "published_at") as [p|]; cbn [bind]; [|reflexivity].
  destruct (get item "created_at") as [c|]; cbn [bind]; [|reflexivity].
  destruct (is_recent _ _) as [recent|]; reflexivity.
Qed.

Lemma headline_of_nonempty (item : json) (cutoff : Z) (t : string) :
  headline_of item cutoff = Ok (Some t) -> str_empty t = false.
Proof.
  unfold headline_of. intro H.
  destruct (get item "title") as [a|]; cbn [bind] in H; [|discriminate].
  destruct (get item "slug") as [s|]; cbn [bind] in H; [|discriminate].
  destruct (str_strip _) as [title|]; cbn [bind] in H; [|discriminate].
  destruct (str_empty title) eqn:Hne; [discriminate|].
  destruct (get item "published_at") as [p|]; cbn [bind] in H; [|discriminate].
  destruct (get item "created_at") as [c|]; cbn [bind] in H; [|discriminate].
  destruct (is_recent _ _) as [recent|]; cbn [bind] in H; [|discriminate].
  injection H as <-.
  destruct recent; [exact Hne|].
  destruct title; [discriminate | reflexivity].
Qed.

Lemma cryptopanic_loop_take (results : list json) (cutoff maxh : Z) :
  (forall item, In item results ->
                exists h, headline_of item cutoff = Ok h) ->
  forall titles,
    (Z.of_nat (List.length titles) < Z.max 1 maxh)%Z ->
    cryptopanic_loop results cutoff maxh titles =
    Ok (firstn (Z.to_nat (Z.max 1 maxh))
               (titles ++ headlines_of results cutoff)).
Proof.
  induction results as [|item rest IH]; intros Hwf titles Hlt.
  - cbn [cryptopanic_loop headlines_of flat_map].
    rewrite app_nil_r, firstn_all2 by lia. reflexivity.
  - rewrite cryptopanic_loop_turn.
    destruct (Hwf item (or_introl eq_refl)) as [h Hh].
    cbn [headlines_of flat_map]. rewrite Hh. cbn [bind].
    assert (Hrest : forall i, In i rest ->
                      exists h', headline_of i cutoff = Ok h')
      by (intros i Hi; apply Hwf; now right).
    destruct h as [t|]; [|exact (IH Hrest titles Hlt)].
    rewrite length_app. cbn [List.length app].
    destruct (Z.leb_spec maxh (Z.of_nat (List.length titles + 1))).
    + replace (Z.to_nat (Z.max 1 maxh)) with (List.length titles + 1)%nat
        by lia.
      replace (titles ++ t :: flat_map _ rest)
        with ((titles ++ [t]) ++ headlines_of rest cutoff)
        by (now rewrite <- app_assoc).
      rewrite firstn_app, firstn_all2 by (rewrite length_app; simpl; lia).
      rewrite length_app. cbn [List.length].
      now rewrite Nat.sub_diag, app_nil_r.
    + rewrite (IH Hrest) by (rewrite length_app; simpl; lia).
      now rewrite <- app_assoc.
Qed.

Lemma cryptopanic_loop_nonempty (results : list json) (cutoff maxh : Z) :
  forall titles out,
    cryptopanic_loop results cutoff maxh titles = Ok out ->
    Forall (fun t => str_empty t = false) titles ->
    Forall (fun t => str_empty t = false) out.
Proof.
  induction results as [|item rest IH]; intros titles out H Hacc.
  - now injection H as <-.
  - rewrite cryptopanic_loop_turn in H.
    destruct (headline_of item cutoff) as [[t|]|] eqn:Hh; cbn [bind] in H;
      [| now apply (IH titles) | discriminate].
    assert (Hacc' : Forall (fun t => str_empty t = false) (titles ++ [t])).
    { apply Forall_app. split; [exact Hacc|].
      constructor; [|constructor]. exact (headline_of_nonempty _ _ _ Hh). }
    destruct (_ <=? _)%Z.
    + now injection H as <-.
    + now apply (IH (titles ++ [t])).
Qed.

(** X10: when the request succeeds, the cutoff [lookback_hours] before now
    is a [datetime] and no item raises, CryptoPanic's headlines are the
    first [max(1, max_headlines)] of the items' headlines, in the order of
    the response: items without a title are passed over, old items are kept
    with their marker, and nothing else decides whether a headline is
    returned. *)
Theorem cryptopanic_takes_first_headlines (api_key currency : string)
  (lookback maxh : Z) (d : list (string * json)) (results : list json) :
  let cutoff := (now_utc - lookback * 3600000000)%Z in
  str_empty api_key = false ->
  http_cryptopanic api_key currency = Ok (JDict d) ->
  lookup "results" d = Some (JList results) ->
  (datetime_min <= cutoff <= datetime_max)%Z ->
  (forall item, In item results ->
     exists h, headline_of item cutoff = Ok h) ->
  _fetch_news_cryptopanic api_key lookback maxh currency =
  Ok (firstn (Z.to_nat (Z.max 1 maxh)) (headlines_of results cutoff)).
Proof.
  intros cutoff Hkey Hget Hres Hrange Hwf.
  rewrite (cryptopanic_after_request _ _ _ _ _ _ Hkey Hget Hres).
  rewrite (hours_before_in_range _ _ Hrange). cbn [bind]. fold cutoff.
  rewrite (cryptopanic_loop_take _ _ _ Hwf []) by (simpl; lia).
  reflexivity.
Qed.

(** X11: CryptoPanic never returns a blank headline: whatever the response
    is, every string in a returned list is non-empty. *)
Theorem cryptopanic_headlines_not_blank (api_key currency : string)
  (lookback maxh : Z) (out : list string) :
  _fetch_news_cryptopanic api_key lookback maxh currency = Ok out ->
  Forall (fun t => str_empty t = false) out.
Proof.
  unfold _fetch_news_cryptopanic. intro H.
  destruct (str_empty api_key); [injection H as <-; constructor|].
  destruct (bind (http_cryptopanic api_key currency) _) as [results|];
    [|injection H as <-; constructor].
  destruct (hours_before _ _) as [cutoff|]; cbn [bind] in H; [|discriminate].
  destruct (iter results) as [items|]; cbn [bind] in H; [|discriminate].
  exact (cryptopanic_loop_nonempty _ _ _ _ _ H (Forall_nil _)).
Qed.


Lemma newsapi_titles_all_or_nothing (articles : list json) (a : json) :
  In a articles -> is_object a = false ->
  exists e, newsapi_titles articles = Raise e.
Proof.
  induction articles as [|a' rest IH]; intros Hin Hobj; [contradiction|].
  cbn [newsapi_titles].
  destruct Hin as [-> | Hin].
  - destruct a; try discriminate; cbn; eauto.
  - destruct (IH Hin Hobj) as [e He].
    destruct (get a' "title") as [t|]; cbn [bind]; [|eauto].
    destruct (truthy t); [|eauto].
    destruct (str_strip _); cbn [bind]; [|eauto].
    rewrite He. cbn [bind]. eauto.
Qed.

Lemma newsapi_request_all_or_nothing (api_key from : string) (maxh : Z)
  (data : json) (articles : list json) (a : json) :
  http_newsapi api_key from maxh = Ok data ->
  get_or_empty data "articles" = Ok (JList articles) ->
  In a articles ->
  is_object a = false ->
  newsapi_request api_key from maxh = [].
Proof.
  intros Hget Harts Hin Hobj. unfold newsapi_request.
  rewrite Hget. cbn [bind]. rewrite Harts. cbn [bind iter].
  destruct (newsapi_titles_all_or_nothing _ _ Hin Hobj) as [e ->].
  reflexivity.
Qed.

(** What [_fetch_news_newsapi] does once the [from] parameter is there. *)
Lemma newsapi_after_from (api_key : string) (lookback maxh from_ts : Z)
  (from : string) :
  str_empty api_key = false ->
  (datetime_min <= now_utc - lookback * 3600000000 <= datetime_max)%Z ->
  timestamp (now_utc - lookback * 3600000000)%Z = Ok from_ts ->
  utcfromtimestamp from_ts = Ok from ->
  _fetch_news_newsapi api_key lookback maxh
    = Ok (newsapi_request api_key (from ++ "Z") maxh).
Proof.
  intros Hkey Hrange Hts Hfrom. unfold _fetch_news_newsapi.
  rewrite Hkey, (hours_before_in_range _ _ Hrange). cbn [bind].
  rewrite Hts. cbn [bind]. rewrite Hfrom. reflexivity.
Qed.

(** X13: NewsAPI's headlines are all or nothing: once the [from] parameter
    is computed and the request answered, one article that is not an
    object, wherever it stands in the response, makes the function return
    the empty list, the headlines of the well-formed articles included. *)
Theorem newsapi_bad_article_discards_all (api_key : string)
  (lookback maxh from_ts : Z) (from : string) (data : json)
  (articles : list json) (a : json) :
  (datetime_min <= now_utc - lookback * 3600000000 <= datetime_max)%Z ->
  timestamp (now_utc - lookback * 3600000000)%Z = Ok from_ts ->
  utcfromtimestamp from_ts = Ok from ->
  http_newsapi api_key (from ++ "Z") maxh = Ok data ->
  get_or_empty data "articles" = Ok (JList articles) ->
  In a articles ->
  is_object a = false ->
  _fetch_news_newsapi api_key lookback maxh = Ok [].
Proof.
  intros Hrange Hts Hfrom Hget Harts Hin Hobj.
  destruct (str_empty api_key) eqn:Hkey;
    [now apply newsapi_without_key|].
  rewrite (newsapi_after_from _ _ _ _ _ Hkey Hrange Hts Hfrom).
  now rewrite (newsapi_request_all_or_nothing _ _ _ _ _ _ Hget Harts Hin Hobj).
Qed.

(** X15: without a CryptoPanic key and without a NewsAPI key the sentiment
    is 0.0 for every configuration, whatever the services would answer. *)
Theorem no_news_keys_no_sentiment (cfg_news : news_config) :
  getenv "CRYPTOPANIC_API_KEY" = "" ->
  getenv "NEWSAPI_KEY" = "" ->
  news_titles cfg_news = Ok [] /\
  news_sentiment cfg_news = Ok 0.0%float.
Proof.
  intros Hcp Hna.
  assert (Htitles : news_titles cfg_news = Ok []).
  { unfold news_titles. rewrite Hcp, Hna. cbn [str_empty negb].
    rewrite andb_false_r. reflexivity. }
  split; [exact Htitles|].
  unfold news_sentiment. now rewrite Htitles.
Qed.

(** X16: CryptoPanic is asked only when the configured source, compared
    without regard to ASCII case, is "cryptopanic". For any other source
    the headlines are NewsAPI's alone, whatever key and answer CryptoPanic
    has: there is no fallback from NewsAPI to CryptoPanic. *)
Theorem other_source_uses_newsapi_only (cfg_news : news_config) :
  String.eqb (lower (get_default (source cfg_news) "cryptopanic"))
             "cryptopanic" = false ->
  news_titles cfg_news =
  _fetch_news_newsapi (getenv "NEWSAPI_KEY")
    (get_default (lookback_hours cfg_news) 6%Z)
    (get_default (max_headlines cfg_news) 12%Z).
Proof.
  intro Hsrc. unfold news_titles. rewrite Hsrc. cbn [andb bind is_nil].
  destruct (str_empty (getenv "NEWSAPI_KEY")) eqn:Hna; cbn [negb];
    [|reflexivity].
  now rewrite (newsapi_without_key _ _ _ Hna).
Qed.

End Aggregator.

Section AggregatorScenarios.

Local Open Scope string_scope.
Local Open Scope list_scope.

Lemma cryptopanic_takes_first_headlines_witness :
  str_empty "cp-key" = false /\
  @http_cryptopanic Sample.online "cp-key" "ETH"
    = Ok (JDict Pages.cryptopanic_fields) /\
  lookup "results" Pages.cryptopanic_fields
    = Some (JList Pages.cryptopanic_results) /\
  _fetch_news_cryptopanic (ext := Sample.online) "cp-key" 6 1 "ETH"
    = Ok ["ETH breaks out (old)"%string].
Proof.
  split; [reflexivity|]. split; [reflexivity|]. split; [reflexivity|].
  rewrite (cryptopanic_takes_first_headlines (ext := Sample.online)
             "cp-key" "ETH" 6 1 Pages.cryptopanic_fields
             Pages.cryptopanic_results eq_refl eq_refl eq_refl).
  - vm_compute. reflexivity.
  - vm_compute. split; discriminate.
  - intros item [<- | [<- | []]]; eexists; vm_compute; reflexivity.
Defined.

Lemma cryptopanic_headlines_not_blank_witness :
  _fetch_news_cryptopanic (ext := Sample.online) "cp-key" 6 12 "ETH"
    = Ok ["ETH breaks out (old)"; "Gas fees fall"]%string /\
  Forall (fun t => str_empty t = false)
         ["ETH breaks out (old)"; "Gas fees fall"]%string.
Proof.
  assert (H : _fetch_news_cryptopanic (ext := Sample.online)
                "cp-key" 6 12 "ETH"
              = Ok ["ETH breaks out (old)"; "Gas fees fall"]%string)
    by (vm_compute; reflexivity).
  split; [exact H|].
  exact (cryptopanic_headlines_not_blank (ext := Sample.online) _ _ _ _ _ H).
Defined.


Lemma newsapi_bad_article_discards_all_witness :
  @http_newsapi Malformed.bad_article "na-key" "2024-06-01T00:00:00Z" 12
    = Ok (JDict [("articles", JList Pages.bad_articles)]%string) /\
  In (JInt 7) Pages.bad_articles /\
  is_object (JInt 7) = false /\
  _fetch_news_newsapi (ext := Malformed.bad_article) "na-key" 6 12 = Ok [].
Proof.
  assert (Hin : In (JInt 7) Pages.bad_articles) by (right; left; reflexivity).
  split; [reflexivity|]. split; [exact Hin|]. split; [reflexivity|].
  refine (newsapi_bad_article_discards_all (ext := Malformed.bad_article)
            "na-key" 6 12 1717178400 "2024-06-01T00:00:00" _
            Pages.bad_articles (JInt 7) _ eq_refl eq_refl eq_refl eq_refl
            Hin eq_refl).
  vm_compute. split; discriminate.
Defined.

Lemma news_titles_bounded_with_fallback_witness :
  (1 <= 12)%Z /\
  news_titles (ext := Sample.fallback) empty_news_config
    = _fetch_news_newsapi (ext := Sample.fallback) "na-key" 6 12.
Proof.
  split; [lia|].
  apply (news_titles_bounded_with_fallback
           (ext := Sample.fallback) empty_news_config);
    [simpl; lia | reflexivity].
Defined.

Lemma no_news_keys_no_sentiment_witness :
  @getenv Sample.offline "CRYPTOPANIC_API_KEY" = ""%string /\
  @getenv Sample.offline "NEWSAPI_KEY" = ""%string /\
  news_sentiment (ext := Sample.offline) empty_news_config = Ok 0.0%float.
Proof.
  split; [reflexivity|]. split; [reflexivity|].
  exact (proj2 (no_news_keys_no_sentiment (ext := Sample.offline)
                  empty_news_config eq_refl eq_refl)).
Defined.

Lemma other_source_uses_newsapi_only_witness :
  String.eqb
    (lower (get_default (source Malformed.newsapi_only) "cryptopanic"))
    "cryptopanic" = false /\
  news_titles (ext := Sample.online) Malformed.newsapi_only
    = _fetch_news_newsapi (ext := Sample.online) "na-key" 6 12.
Proof.
  split; [reflexivity|].
  exact (other_source_uses_newsapi_only (ext := Sample.online)
           Malformed.newsapi_only eq_refl).
Defined.

End AggregatorScenarios.

(** ** The decision blender, further *)

Lemma is_nan_decoded (x : float) :
  is_nan x = true -> Prim2SF x = S754_nan.
Proof.
  rewrite is_nan_spec. destruct (Prim2SF x); try discriminate. reflexivity.
Qed.

Lemma leb_nan_l (x y : float) : is_nan x = true -> (x <=? y)%float = false.
Proof.
  intro H. rewrite leb_spec, (is_nan_decoded _ H). reflexivity.
Qed.

Lemma leb_nan_r (x y : float) : is_nan y = true -> (x <=? y)%float = false.
Proof.
  intro H. rewrite leb_spec, (is_nan_decoded _ H).
  unfold SFleb. destruct (Prim2SF x); reflexivity.
Qed.

Lemma is_nan_sub_r (x y : float) :
  is_nan y = true -> is_nan (x - y)%float = true.
Proof.
  intro H. rewrite is_nan_spec, sub_spec, (is_nan_decoded _ H).
  unfold SF64sub, SFsub. destruct (Prim2SF x); reflexivity.
Qed.

(** At the neutral probability no side is taken unless
    [min_price_model_proba] lets 0.5 through. *)
Lemma side_of_neutral (cfg : config) (s_news : float) :
  geb 0.5 (get_default (min_price_model_proba cfg) 0.55%float) = false ->
  side_of cfg 0.5 s_news = "skip"%string.
Proof.
  intro Hmin. unfold side_of.
  change (1 - 0.5)%float with 0.5%float.
  rewrite Hmin. now rewrite !andb_false_r.
Qed.

(** X17: the side is "short" exactly when the three conditions for "long"
    do not all hold and [blended <= -0.1], [1 - proba_up >=
    min_price_model_proba] and [sentiment <= max_news_sentiment_for_short]
    do; and the side is always one of "long", "short" and "skip". *)
Theorem short_rule (cfg : config) (proba_up s_news : float) :
  let b := blended cfg proba_up s_news in
  let min_proba := get_default (min_price_model_proba cfg) 0.55%float in
  (side_of cfg proba_up s_news = "short"%string <->
   geb b 0.1 && geb proba_up min_proba
     && geb s_news (get_default (min_news_sentiment cfg) 0.10%float) = false /\
   (b <=? -0.1)%float = true /\
   geb (1 - proba_up)%float min_proba = true /\
   (s_news <=? get_default (max_news_sentiment_for_short cfg) (-0.10))%float
     = true) /\
  (side_of cfg proba_up s_news = "long"%string \/
   side_of cfg proba_up s_news = "short"%string \/
   side_of cfg proba_up s_news = "skip"%string).
Proof.
  intros b min_proba. unfold side_of. fold b min_proba.
  destruct (geb b 0.1 && geb proba_up min_proba && geb s_news _).
  - split; [|auto]. split; [discriminate | intros (? & _); discriminate].
  - destruct (b <=? -0.1)%float; destruct (geb (1 - proba_up)%float min_proba);
      destruct (s_news <=? _)%float; cbn [andb];
      (split; [|auto]);
      split;
      try (intros (_ & ? & ? & ?); discriminate);
      try discriminate; auto.
Qed.

(** X18: a NaN never opens a position: if [proba_up] or the sentiment is
    NaN, every comparison it enters is false and the side is "skip". *)
Theorem nan_never_trades (cfg : config) (proba_up s_news : float) :
  is_nan proba_up = true \/ is_nan s_news = true ->
  side_of cfg proba_up s_news = "skip"%string.
Proof.
  intro Hnan. unfold side_of, geb.
  destruct Hnan as [Hp | Hs].
  - rewrite (leb_nan_r _ proba_up Hp).
    rewrite (leb_nan_r _ (1 - proba_up)%float (is_nan_sub_r _ _ Hp)).
    now rewrite !andb_false_r.
  - rewrite (leb_nan_r _ s_news Hs), (leb_nan_l s_news _ Hs).
    now rewrite !andb_false_r.
Qed.

Lemma nan_never_trades_witness :
  (is_nan nan = true \/ is_nan 0.9%float = true) /\
  side_of Sample.default_config nan 0.9 = "skip"%string.
Proof.
  assert (H : is_nan nan = true \/ is_nan 0.9%float = true)
    by (left; reflexivity).
  split; [exact H|].
  exact (nan_never_trades Sample.default_config nan 0.9%float H).
Defined.

Section NoData.

Context {ext : External}.

Local Open Scope py_scope.

(** X19: too little data never trades: when the feature frame has fewer
    than fifty rows, [min_price_model_proba] is above 0.5 (as the default
    0.55 is) and the news step returns, the decision is "skip" whatever
    the sentiment is, and the diagnostics report [proba_up = 0.5]. *)
Theorem insufficient_data_skips (df : list candle) (cfg : config)
  (rows : list frow) (s_news : float) :
  build_features df = Ok rows ->
  (List.length rows < 50)%nat ->
  geb 0.5 (get_default (min_price_model_proba cfg) 0.55%float) = false ->
  news_sentiment (get_default (news cfg) empty_news_config) = Ok s_news ->
  decide_direction df cfg =
  Ok ("skip"%string,
      {| diag_proba_up := 0.5%float;
         diag_news_sent := round3 s_news;
         diag_blended := round3 (blended cfg 0.5 s_news) |}).
Proof.
  intros Hfeat Hlen Hmin Hnews.
  unfold decide_direction.
  rewrite (price_model_signal_few_rows _ _ _ _ Hfeat Hlen). cbn [bind].
  unfold decide_from_signal. rewrite Hnews. cbn [bind].
  now rewrite (side_of_neutral _ _ Hmin).
Qed.

(** A decision taken on fewer than 56 candles is "skip". *)
Lemma decide_direction_short_frame (df : list candle) (cfg : config)
  (side : string) (d : diag) :
  (List.length df < 56)%nat ->
  geb 0.5 (get_default (min_price_model_proba cfg) 0.55%float) = false ->
  decide_direction df cfg = Ok (side, d) ->
  side = "skip"%string.
Proof.
  intros Hlen Hmin H. unfold decide_direction in H.
  destruct (build_features df) as [rows|] eqn:Hfeat.
  - pose proof (build_features_after_warmup _ _ Hfeat) as Hrows.
    rewrite (price_model_signal_few_rows _ _ _ _ Hfeat) in H by lia.
    cbn [bind] in H. unfold decide_from_signal in H.
    destruct (news_sentiment _) as [s|]; cbn [bind] in H; [|discriminate].
    injection H as <- _. now apply side_of_neutral.
  - unfold price_model_signal in H. rewrite Hfeat in H. discriminate.
Qed.

End NoData.

Lemma insufficient_data_skips_witness :
  build_features (ext := Sample.online) (Sample.candles 55)
    = Ok (firstn 49 Sample.features) /\
  (List.length (firstn 49 Sample.features) < 50)%nat /\
  geb 0.5 (get_default (min_price_model_proba Sample.default_config)
             0.55%float) = false /\
  news_sentiment (ext := Sample.online) empty_news_config = Ok 0.45%float /\
  decide_direction (ext := Sample.online) (Sample.candles 55)
    Sample.default_config
  = Ok ("skip"%string,
        {| diag_proba_up := 0.5%float; diag_news_sent := 0.45%float;
           diag_blended := 0.18%float |}).
Proof.
  assert (H : build_features (ext := Sample.online) (Sample.candles 55)
              = Ok (firstn 49 Sample.features)) by (vm_compute; reflexivity).
  assert (Hlen : (List.length (firstn 49 Sample.features) < 50)%nat)
    by (vm_compute; lia).
  assert (Hnews : news_sentiment (ext := Sample.online) empty_news_config
                  = Ok 0.45%float) by (vm_compute; reflexivity).
  split; [exact H|]. split; [exact Hlen|]. split; [reflexivity|].
  split; [exact Hnews|].
  rewrite (insufficient_data_skips (ext := Sample.online)
             (Sample.candles 55) Sample.default_config
             (firstn 49 Sample.features) 0.45%float H Hlen eq_refl Hnews).
  vm_compute. reflexivity.
Defined.

(** * Properties of the polling cycle *)

Lemma length_fetch_candles_df (rows : list ohlcv) :
  List.length (fetch_candles_df rows) = List.length rows.
Proof.
  unfold fetch_candles_df.
  rewrite length_map, length_combine, length_seq. lia.
Qed.

Lemma length_tail {A : Type} (n : Z) (l : list A) :
  (0 <= n)%Z -> (Z.of_nat (List.length (tail n l)) <= n)%Z.
Proof.
  intro Hn. unfold tail.
  destruct (Z.leb_spec 0 n); [|lia].
  rewrite length_skipn. lia.
Qed.

(** A float below or above zero has a positive absolute value and counts
    as true. *)
Lemma nonzero_contracts (x : float) :
  (x <? 0)%float || (0 <? x)%float = true ->
  gtb (abs x) 0 = true /\ truthy (JFloat x) = true.
Proof.
  unfold gtb, truthy.
  rewrite !ltb_spec, is_zero_spec, abs_spec.
  change (Prim2SF 0) with (S754_zero false).
  unfold SFltb.
  destruct (Prim2SF x) as [s|s| |s m e]; simpl;
    try destruct s; simpl; intro H; try discriminate; split; reflexivity.
Qed.

Section Cycle.

Context {ext : External} {ex : Exchange}.

Local Open Scope string_scope.
Local Open Scope list_scope.
Local Open Scope py_scope.

(** What a call of [open_position] in a cycle presupposes. *)
Lemma open_position_needs_signal (cfg : bot_config) (side : string) :
  let lookback := get_default (lookback_bars cfg) 200%Z in
  In (OpenPosition side) (run_cycle cfg) ->
  (exists positions,
     fetch_positions = Ok positions /\ has_pos positions = Ok false) /\
  (exists rows d,
     fetch_ohlcv (get_default (bar_tf cfg) "5m") (Z.max 300 lookback)
       = Ok rows /\
     decide_direction (tail lookback (fetch_candles_df rows))
       (signals_config cfg) = Ok (side, d) /\
     (side = "long" \/ side = "short")).
Proof.
  intro lookback. unfold run_cycle. fold lookback.
  intro H.
  destruct fetch_positions as [positions|]; cbn [bind] in H;
    [|destruct H as [H|[]]; discriminate].
  destruct (has_pos positions) as [[|]|] eqn:Hpos;
    try (destruct H as [H|[]]; discriminate).
  split; [eauto|].
  destruct (fetch_ohlcv _ _) as [rows|]; cbn [bind] in H;
    [|destruct H as [H|[]]; discriminate].
  destruct (decide_direction _ _) as [[s d]|] eqn:Hdecide;
    [|destruct H as [H|[]]; discriminate].
  destruct H as [H|H]; [discriminate|].
  destruct (String.eqb s "long" || String.eqb s "short") eqn:Hside;
    [|destruct H as [H|[]]; discriminate].
  destruct H as [H|H].
  - injection H as ->. exists rows, d.
    split; [reflexivity|]. split; [exact Hdecide|].
    apply orb_true_iff in Hside.
    destruct Hside as [Hs|Hs]; apply String.eqb_eq in Hs; auto.
  - destruct (open_position s); [destruct H|].
    destruct H as [H|[]]; discriminate.
Qed.

(** X20: a cycle calls [open_position] with [side] exactly when the
    exchange reports no open position, the candles were fetched, and
    [decide_direction], run on the last [lookback_bars] candles, returned
    [side] and it is "long" or "short". A failed request, an exception of
    the decision and a "skip" never open a position. *)
Theorem position_opened_only_on_signal (cfg : bot_config) (side : string) :
  let lookback := get_default (lookback_bars cfg) 200%Z in
  In (OpenPosition side) (run_cycle cfg) <->
  (exists positions,
     fetch_positions = Ok positions /\ has_pos positions = Ok false) /\
  (exists rows d,
     fetch_ohlcv (get_default (bar_tf cfg) "5m") (Z.max 300 lookback)
       = Ok rows /\
     decide_direction (tail lookback (fetch_candles_df rows))
       (signals_config cfg) = Ok (side, d) /\
     (side = "long" \/ side = "short")).
Proof.
  intro lookback. split; [apply open_position_needs_signal|].
  intros ((positions & Hfetch & Hpos) & rows & d & Hrows & Hdecide & Hside).
  unfold run_cycle. fold lookback.
  rewrite Hfetch, Hrows. cbn [bind]. rewrite Hpos, Hdecide.
  replace (String.eqb side "long" || String.eqb side "short") with true
    by (destruct Hside as [-> | ->]; reflexivity).
  right. left. reflexivity.
Qed.

(** X21: the position check looks at the size of [contracts], not at its
    sign, and stops at the first position it finds: when the first
    reported position has a non-zero number of contracts, negative for a
    short included, the cycle only reports that a position is open; no
    candle is fetched, no signal computed and no position opened, whatever
    else the list holds. *)
Theorem open_position_blocks_cycle (cfg : bot_config)
  (p : list (string * json)) (rest : list json) (x : float) :
  fetch_positions = Ok (JList (JDict p :: rest)) ->
  lookup "contracts" p = Some (JFloat x) ->
  (x <? 0)%float || (0 <? x)%float = true ->
  has_pos (JList (JDict p :: rest)) = Ok true /\
  run_cycle cfg = [PositionAlreadyOpen].
Proof.
  intros Hfetch Hc Hx.
  destruct (nonzero_contracts _ Hx) as [Habs Htruthy].
  assert (Hpos : has_pos (JList (JDict p :: rest)) = Ok true).
  { unfold has_pos. cbn [iter bind any_open get]. unfold dict_get.
    rewrite Hc. unfold or_. rewrite Htruthy. cbn [to_float bind].
    now rewrite Habs. }
  split; [exact Hpos|].
  unfold run_cycle. rewrite Hfetch. cbn [bind]. now rewrite Hpos.
Qed.

(** X22: a look-back of at most 55 bars switches trading off: the frame
    handed to [decide_direction] then has fewer than 56 candles, so fewer
    than fifty feature rows, and with [min_price_model_proba] above 0.5 no
    cycle calls [open_position], whatever the market and the news are. *)
Theorem short_lookback_never_trades (cfg : bot_config) (side : string) :
  let lookback := get_default (lookback_bars cfg) 200%Z in
  (0 <= lookback <= 55)%Z ->
  geb 0.5 (get_default (min_price_model_proba (signals_config cfg))
             0.55%float) = false ->
  ~ In (OpenPosition side) (run_cycle cfg).
Proof.
  intros lookback Hlook Hmin Hin.
  apply open_position_needs_signal in Hin.
  destruct Hin as (_ & rows & d & _ & Hdecide & Hside).
  fold lookback in Hdecide.
  assert (Hlen : (List.length (tail lookback (fetch_candles_df rows)) < 56)%nat).
  { pose proof (length_tail lookback (fetch_candles_df rows)
                  (proj1 Hlook)). lia. }
  pose proof (decide_direction_short_frame _ _ _ _ Hlen Hmin Hdecide) as Hskip.
  destruct Hside as [-> | ->]; discriminate.
Qed.

End Cycle.

Section CycleScenarios.

Local Open Scope string_scope.
Local Open Scope list_scope.

Lemma open_position_blocks_cycle_witness :
  @fetch_positions Desk.in_short = Ok (JList [JDict Desk.short_fields]) /\
  lookup "contracts" Desk.short_fields = Some (JFloat (-2)) /\
  ((-2) <? 0)%float || (0 <? (-2))%float = true /\
  run_cycle (ext := Sample.online) (ex := Desk.in_short) (Desk.config None)
    = [PositionAlreadyOpen].
Proof.
  split; [reflexivity|]. split; [reflexivity|]. split; [reflexivity|].
  exact (proj2 (open_position_blocks_cycle
                  (ext := Sample.online) (ex := Desk.in_short)
                  (Desk.config None) Desk.short_fields [] (-2)%float
                  eq_refl eq_refl eq_refl)).
Defined.

Lemma short_lookback_never_trades_witness :
  (0 <= get_default (lookback_bars (Desk.config (Some 55%Z))) 200 <= 55)%Z /\
  geb 0.5 (get_default
             (min_price_model_proba
                (signals_config (Desk.config (Some 55%Z)))) 0.55%float)
    = false /\
  ~ In (OpenPosition "long")
       (run_cycle (ext := Sample.online) (ex := Desk.flat)
          (Desk.config (Some 55%Z))).
Proof.
  assert (Hlook : (0 <= get_default
                          (lookback_bars (Desk.config (Some 55%Z))) 200
                     <= 55)%Z) by (simpl; lia).
  split; [exact Hlook|]. split; [reflexivity|].
  exact (short_lookback_never_trades
           (ext := Sample.online) (ex := Desk.flat)
           (Desk.config (Some 55%Z)) "long" Hlook eq_refl).
Defined.

End CycleScenarios.

(** * Further properties of the news path *)

Section NewsLimits.

Context {ext : External}.

Local Open Scope string_scope.
Local Open Scope list_scope.
Local Open Scope py_scope.

(** X23: NewsAPI's path keeps the limit for every [max_headlines >= 0]:
    the list is cut by a slice, whatever the service answers, so a limit
    of zero gives no headline at all. The function returns a list whenever
    the [from] parameter can be computed, and with a key it raises
    [OverflowError] when [lookback_hours] before now is not a
    [datetime]. *)
Theorem newsapi_within_limit (api_key : string) (lookback maxh : Z) :
  let dt := (now_utc - lookback * 3600000000)%Z in
  (0 <= maxh)%Z ->
  (forall out,
     _fetch_news_newsapi api_key lookback maxh = Ok out ->
     (Z.of_nat (List.length out) <= maxh)%Z /\ (maxh = 0%Z -> out = [])) /\
  (forall from_ts from,
     (datetime_min <= dt <= datetime_max)%Z ->
     timestamp dt = Ok from_ts ->
     utcfromtimestamp from_ts = Ok from ->
     exists out, _fetch_news_newsapi api_key lookback maxh = Ok out) /\
  (~ (datetime_min <= dt <= datetime_max)%Z ->
   str_empty api_key = false ->
   _fetch_news_newsapi api_key lookback maxh = Raise OverflowError).
Proof.
  intros dt Hmax. split; [|split].
  - intros out H.
    pose proof (newsapi_bounded _ _ _ _ Hmax H) as Hlen.
    split; [exact Hlen|].
    intro Hzero. rewrite Hzero in Hlen.
    destruct out as [|t l]; [reflexivity | simpl in Hlen; lia].
  - intros from_ts from Hrange Hts Hfrom.
    destruct (str_empty api_key) eqn:Hkey.
    + exists []. now apply newsapi_without_key.
    + rewrite (newsapi_after_from _ _ _ _ _ Hkey Hrange Hts Hfrom). eauto.
  - intros Hout Hkey. unfold _fetch_news_newsapi.
    now rewrite Hkey, (hours_before_out_of_range _ _ Hout).
Qed.

Lemma side_of_zero_sentiment (cfg : config) (proba_up : float) :
  get_default (min_news_sentiment cfg) 0.10%float = 0.10%float ->
  get_default (max_news_sentiment_for_short cfg) (-0.10)%float
    = (-0.10)%float ->
  side_of cfg proba_up 0.0 = "skip".
Proof.
  intros Hmin Hmax. unfold side_of. rewrite Hmin, Hmax.
  change (geb 0.0%float 0.10%float) with false.
  change (0.0 <=? -0.10)%float with false.
  now rewrite !andb_false_r.
Qed.

Lemma finbert_loop_zeros (hf_token : string) :
  (forall i t, is_object (try_except (http_finbert i hf_token t) JNull)
               = false) ->
  forall texts i,
    finbert_loop i texts hf_token = repeat 0.0%float (List.length texts).
Proof.
  intros Hshape texts.
  induction texts as [|t texts IH]; intro i; simpl; [reflexivity|].
  rewrite IH. f_equal.
  specialize (Hshape i t).
  destruct (http_finbert i hf_token t) as [out|]; [|reflexivity].
  now apply non_object_scores_zero.
Qed.

(** X24: answers that are not a single JSON object silence the news
    signal. If every FinBERT request of the cycle fails or is answered by
    a list (or any other non-object), every score is 0.0; numpy's mean of
    these zeros being zero, the sentiment is 0.0, and with the default
    [min_news_sentiment] and [max_news_sentiment_for_short] the decision
    is "skip" for every price signal. *)
Theorem list_answers_block_trading (cfg : config) (signal : float * Z)
  (titles : list string) :
  let cfg_news := get_default (news cfg) empty_news_config in
  let hf_token := getenv "HUGGINGFACE_API_TOKEN" in
  (forall i t, is_object (try_except (http_finbert i hf_token t) JNull)
               = false) ->
  (titles <> [] ->
   np_mean (repeat 0.0%float (List.length titles)) = 0.0%float) ->
  get_default (min_news_sentiment cfg) 0.10%float = 0.10%float ->
  get_default (max_news_sentiment_for_short cfg) (-0.10)%float
    = (-0.10)%float ->
  news_titles cfg_news = Ok titles ->
  news_sentiment cfg_news = Ok 0.0%float /\
  exists d, decide_from_signal signal cfg = Ok ("skip", d).
Proof.
  intros cfg_news hf_token Hshape Hmean Hmin Hmax Htitles.
  assert (Hnews : news_sentiment cfg_news = Ok 0.0%float).
  { unfold news_sentiment. rewrite Htitles. cbn [bind]. fold hf_token.
    destruct titles as [|t titles]; [reflexivity|]. cbn [is_nil].
    unfold _hf_sentiment_finbert.
    destruct (str_empty hf_token); [reflexivity|].
    rewrite (finbert_loop_zeros _ Hshape).
    rewrite Hmean by discriminate. reflexivity. }
  split; [exact Hnews|].
  destruct signal as [proba_up flag]. unfold decide_from_signal.
  fold cfg_news. rewrite Hnews. cbn [bind].
  rewrite (side_of_zero_sentiment _ _ Hmin Hmax). eauto.
Qed.

End NewsLimits.

Section NewsLimitScenarios.

Local Open Scope string_scope.
Local Open Scope list_scope.

Lemma newsapi_within_limit_witness :
  (0 <= 0)%Z /\
  _fetch_news_newsapi (ext := Sample.online) "na-key" 6 0 = Ok [] /\
  (Z.of_nat (List.length (@nil string)) <= 0)%Z.
Proof.
  assert (H : (0 <= 0)%Z) by lia.
  assert (E : _fetch_news_newsapi (ext := Sample.online) "na-key" 6 0
              = Ok []) by (vm_compute; reflexivity).
  split; [exact H|]. split; [exact E|].
  exact (proj1 (proj1 (newsapi_within_limit (ext := Sample.online)
                         "na-key" 6 0 H) [] E)).
Defined.

Lemma list_answers_block_trading_witness :
  (forall i t,
     is_object (try_except (@http_finbert Hosted.lists i "hf-token" t) JNull)
     = false) /\
  Sample.mean (repeat 0.0%float 2) = 0.0%float /\
  news_titles (ext := Hosted.lists) empty_news_config
    = Ok ["ETH breaks out (old)"; "Gas fees fall"] /\
  news_sentiment (ext := Hosted.lists) empty_news_config = Ok 0.0%float.
Proof.
  assert (Hshape : forall i t,
            is_object (try_except (@http_finbert Hosted.lists i "hf-token" t)
                         JNull) = false) by reflexivity.
  assert (Htitles : news_titles (ext := Hosted.lists) empty_news_config
                    = Ok ["ETH breaks out (old)"; "Gas fees fall"])
    by (vm_compute; reflexivity).
  split; [exact Hshape|]. split; [reflexivity|].
  split; [exact Htitles|].
  exact (proj1 (list_answers_block_trading (ext := Hosted.lists)
                  Sample.default_config (0.9%float, 1%Z)
                  ["ETH breaks out (old)"; "Gas fees fall"]
                  Hshape (fun _ => eq_refl) eq_refl eq_refl Htitles)).
Defined.

End NewsLimitScenarios.

(** ** Look-backs outside the calendar *)

Section LongLookback.

Context {ext : External}.

Local Open Scope string_scope.
Local Open Scope list_scope.
Local Open Scope py_scope.

(** X25: the instant [lookback_hours] before now is computed outside the
    [try] blocks of both fetchers. When it is not a [datetime], CryptoPanic's
    fetcher raises [OverflowError] after a successful request, even one
    without results, NewsAPI's fetcher raises it before any request, and
    once CryptoPanic has yielded nothing and a NewsAPI key is set the
    exception leaves [news_sentiment] and the decision. *)
Theorem lookback_out_of_range_raises (cfg : config) :
  let cfg_news := get_default (news cfg) empty_news_config in
  let lookback := get_default (lookback_hours cfg_news) 6%Z in
  let maxh := get_default (max_headlines cfg_news) 12%Z in
  ~ (datetime_min <= now_utc - lookback * 3600000000 <= datetime_max)%Z ->
  (forall api_key d,
     str_empty api_key = false ->
     http_cryptopanic api_key "ETH" = Ok (JDict d) ->
     (lookup "results" d = None \/
      exists results, lookup "results" d = Some (JList results)) ->
     _fetch_news_cryptopanic api_key lookback maxh "ETH"
       = Raise OverflowError) /\
  (forall api_key,
     str_empty api_key = false ->
     _fetch_news_newsapi api_key lookback maxh = Raise OverflowError) /\
  (_fetch_news_cryptopanic (getenv "CRYPTOPANIC_API_KEY") lookback maxh "ETH"
     = Ok [] ->
   str_empty (getenv "NEWSAPI_KEY") = false ->
   news_sentiment cfg_news = Raise OverflowError /\
   forall signal, decide_from_signal signal cfg = Raise OverflowError).
Proof.
  intros cfg_news lookback maxh Hout.
  assert (Hna : forall api_key,
            str_empty api_key = false ->
            _fetch_news_newsapi api_key lookback maxh = Raise OverflowError).
  { intros api_key Hkey. unfold _fetch_news_newsapi.
    now rewrite Hkey, (hours_before_out_of_range _ _ Hout). }
  split; [|split; [exact Hna|]].
  - intros api_key d Hkey Hget Hres.
    unfold _fetch_news_cryptopanic. rewrite Hkey, Hget.
    cbn [bind get_or_empty].
    destruct Hres as [-> | [results ->]]; cbn [sized bind];
      now rewrite (hours_before_out_of_range _ _ Hout).
  - intros Hcp Hkey.
    assert (Hnews : news_sentiment cfg_news = Raise OverflowError).
    { unfold news_sentiment.
      rewrite (news_titles_fallback cfg_news Hcp).
      fold lookback maxh. now rewrite (Hna _ Hkey). }
    split; [exact Hnews|].
    intros [proba_up flag]. unfold decide_from_signal.
    fold cfg_news. now rewrite Hnews.
Qed.

End LongLookback.

Lemma lookback_out_of_range_raises_witness :
  ~ (datetime_min <= @now_utc Sample.fallback - 20000000 * 3600000000
     <= datetime_max)%Z /\
  _fetch_news_cryptopanic (ext := Sample.fallback) "cp-key" 20000000 12 "ETH"
    = Ok [] /\
  news_sentiment (ext := Sample.fallback) Cases.long_lookback
    = Raise OverflowError.
Proof.
  assert (Hout : ~ (datetime_min
                    <= @now_utc Sample.fallback - 20000000 * 3600000000
                    <= datetime_max)%Z)
    by (vm_compute; intros [H _]; now apply H).
  assert (Hcp : _fetch_news_cryptopanic (ext := Sample.fallback)
                  "cp-key" 20000000 12 "ETH" = Ok [])
    by (vm_compute; reflexivity).
  split; [exact Hout|]. split; [exact Hcp|].
  exact (proj1 (proj2 (proj2
           (lookback_out_of_range_raises (ext := Sample.fallback)
              (mk_config None None (Some Cases.long_lookback)
                 None None None None) Hout)) Hcp eq_refl)).
Defined.
